(** * FashionAnalyzer: load, clean, report and plot a table of fashion records

    A shallow embedding of [code.py].  The program is a single class,
    [FashionAnalyzer], with the methods [load_data], [print_text_stats],
    [plot_all_charts] and [run].

    - A data frame is a list of column names and a list of rows; a row is
      its index label and its cells; a cell is missing, a number or a text.
      Numbers are exact rationals, so that equal numbers are equal cells.
    - The table operations the methods call ([fillna], [duplicated],
      [drop_duplicates], [groupby], [median], [mean], [sort_values],
      [value_counts]) are list functions.  Where the library leaves the
      order of ties open, the order chosen here is one of the allowed
      ones and no statement below depends on it.
    - A method is a state transformer that returns or raises.  The state is
      the analyzer object, the figure under construction and the trace of
      everything read, logged, printed and shown.  [try]/[except] is a
      combinator; an exception that nothing catches ends the method and
      its callers.
    - The file system is a parameter: what [pd.read_csv] returns or raises
      for a path.  The table of [describe()] is recorded as an event. *)

From Stdlib Require Import QArith Qcanon.
From stdpp Require Import base tactics option list numbers strings sorting.

Open Scope string_scope.

(** ** Cells, rows and frames *)

Module Frame.

(** A cell read from the CSV file is missing (NaN), a number or a text.
    Numbers are exact rationals with Leibniz equality. *)
Inductive cell : Type :=
  | NaN
  | Num (q : Qc)
  | Str (s : string).

#[export] Instance cell_eq_dec : EqDecision cell.
Proof. solve_decision. Defined.

(** A row keeps the index label it was given when the file was read. *)
Record row : Type := Row { label : nat; cells : list cell }.

#[export] Instance row_eq_dec : EqDecision row.
Proof. solve_decision. Defined.

Record DataFrame : Type := DF { columns : list string; rows : list row }.

#[export] Instance DataFrame_eq_dec : EqDecision DataFrame.
Proof. solve_decision. Defined.

(** An integer literal as a cell; [fillna(0)] writes [num 0]. *)
Definition num (z : Z) : cell := Num (Qc_of_Z z).

Definition zero : cell := num 0.

Definition isna (c : cell) : bool :=
  match c with NaN => true | _ => false end.

(** [DataFrame.fillna(0)]: every missing cell becomes the number zero,
    whatever the column; everything else, labels included, is kept. *)
Definition fill_cell (c : cell) : cell :=
  if isna c then zero else c.

Definition fill_row (r : row) : row :=
  Row (label r) (map fill_cell (cells r)).

Definition fillna (d : DataFrame) : DataFrame :=
  DF (columns d) (map fill_row (rows d)).

(** [DataFrame.duplicated(keep='first')]: the mask is [true] at a row whose
    cells already occurred in an earlier row.  Labels are not compared. *)
Fixpoint duplicated_from (seen : list (list cell)) (rs : list row) : list bool :=
  match rs with
  | [] => []
  | r :: rs' =>
      if decide (cells r ∈ seen)
      then true :: duplicated_from seen rs'
      else false :: duplicated_from (cells r :: seen) rs'
  end.

Definition duplicated (rs : list row) : list bool := duplicated_from [] rs.

(** Boolean indexing [df[~mask]]. *)
Fixpoint drop_mask (mask : list bool) (rs : list row) : list row :=
  match mask, rs with
  | m :: mask', r :: rs' =>
      if m then drop_mask mask' rs' else r :: drop_mask mask' rs'
  | _, _ => []
  end.

(** [DataFrame.drop_duplicates()] is [df[~df.duplicated()]]. *)
Definition drop_duplicates (d : DataFrame) : DataFrame :=
  DF (columns d) (drop_mask (duplicated (rows d)) (rows d)).

(** The cleaning step of [load_data]: [df.fillna(0).drop_duplicates()]. *)
Definition clean (d : DataFrame) : DataFrame :=
  drop_duplicates (fillna d).

(** Column access: [df[name]] raises [KeyError] when the name is absent;
    here the position of the column, if any. *)
Fixpoint col_index (name : string) (cols : list string) : option nat :=
  match cols with
  | [] => None
  | c :: cols' =>
      if decide (c = name) then Some 0
      else S <$> col_index name cols'
  end.

Definition has_column (name : string) (d : DataFrame) : bool :=
  bool_decide (name ∈ columns d).

(** A short row is padded with missing cells, as the CSV reader does. *)
Definition cell_at (i : nat) (r : row) : cell := default NaN (cells r !! i).

End Frame.

Import Frame.

(** ** Column statistics used by the report and the charts *)

Module Stats.

(** Order of group keys and of plotted categories: numbers before texts,
    numbers by value, texts by code point. *)
Definition cell_leb (a b : cell) : bool :=
  match a, b with
  | NaN, _ => true
  | Num _, NaN => false
  | Num x, Num y => bool_decide (x ≤ y)%Qc
  | Num _, Str _ => true
  | Str s, Str t => String.leb s t
  | Str _, _ => false
  end.

Definition cell_le (a b : cell) : Prop := cell_leb a b = true.

#[export] Instance cell_le_dec : RelDecision cell_le.
Proof. intros a b. unfold cell_le. apply _. Defined.

(** [Series.unique()]: the distinct values in order of first appearance. *)
Fixpoint unique_from (seen : list cell) (l : list cell) : list cell :=
  match l with
  | [] => []
  | c :: l' =>
      if decide (c ∈ seen) then unique_from seen l'
      else c :: unique_from (c :: seen) l'
  end.

Definition unique (l : list cell) : list cell := unique_from [] l.

Definition notna (c : cell) : bool := negb (isna c).

(** The keys of [groupby(key)]: distinct, missing keys dropped, sorted. *)
Definition group_keys (ks : list cell) : list cell :=
  merge_sort cell_le (unique (filter (λ c, notna c = true) ks)).

(** The values of the rows whose key is [k], in row order. *)
Definition group_values (k : cell) (kvs : list (cell * cell)) : list cell :=
  snd <$> filter (λ kv, kv.1 = k) kvs.

Definition groups (kvs : list (cell * cell)) : list (cell * list cell) :=
  (λ k, (k, group_values k kvs)) <$> group_keys (fst <$> kvs).

(** A column holding a text has dtype [object] and no numeric aggregate;
    missing numbers are skipped. *)
Fixpoint numeric (l : list cell) : option (list Qc) :=
  match l with
  | [] => Some []
  | NaN :: l' => numeric l'
  | Num q :: l' => (q ::.) <$> numeric l'
  | Str _ :: _ => None
  end.

Definition Qc_two : Qc := (1 + 1)%Qc.

(** Median of a sample: the middle value of the sorted sample, or the mean
    of the two middle values. *)
Definition median (l : list Qc) : Qc :=
  let s := merge_sort Qcle l in
  let n := length s in
  if Nat.even n
  then ((nth (n / 2 - 1) s 0 + nth (n / 2) s 0) / Qc_two)%Qc
  else nth (n / 2) s 0%Qc.

Definition Qc_of_nat (n : nat) : Qc := Qc_of_Z (Z.of_nat n).

(** Arithmetic mean; a group of a cleaned table is never empty. *)
Definition mean (l : list Qc) : Qc :=
  (foldr Qcplus 0 l / Qc_of_nat (length l))%Qc.

(** [sort_values()] and [sort_values(ascending=False)] on a series of
    numbers indexed by group key. *)
Definition by_value_asc (a b : cell * Qc) : Prop := (a.2 ≤ b.2)%Qc.
Definition by_value_desc (a b : cell * Qc) : Prop := (b.2 ≤ a.2)%Qc.

#[export] Instance by_value_asc_dec : RelDecision by_value_asc.
Proof. intros a b. unfold by_value_asc. apply _. Defined.
#[export] Instance by_value_desc_dec : RelDecision by_value_desc.
Proof. intros a b. unfold by_value_desc. apply _. Defined.

Definition sort_values (s : list (cell * Qc)) : list (cell * Qc) :=
  merge_sort by_value_asc s.

Definition sort_values_desc (s : list (cell * Qc)) : list (cell * Qc) :=
  merge_sort by_value_desc s.

(** [value_counts()]: how often each present value occurs, most frequent
    first. *)
Definition by_count_desc (a b : cell * nat) : Prop := (b.2 ≤ a.2)%nat.

#[export] Instance by_count_desc_dec : RelDecision by_count_desc.
Proof. intros a b. unfold by_count_desc. apply _. Defined.

Definition count_of (k : cell) (l : list cell) : nat :=
  length (filter (λ c, c = k) l).

Definition value_counts (l : list cell) : list (cell * nat) :=
  merge_sort by_count_desc
    ((λ k, (k, count_of k l)) <$> unique (filter (λ c, notna c = true) l)).

End Stats.

Import Stats.

(** ** Exceptions, output events and the state the methods act on *)

Module Py.

Inductive exn : Type :=
  | FileNotFoundError (m : string)
  | KeyError (k : string)
  | ValueError (m : string)
  | TypeError (m : string)
  | AttributeError (m : string)
  | OtherError (m : string).

(** [str(e)], as interpolated into the log messages. *)
Definition exn_str (e : exn) : string :=
  match e with
  | KeyError k => "'" ++ k ++ "'"
  | FileNotFoundError m | ValueError m | TypeError m
  | AttributeError m | OtherError m => m
  end.

Inductive result (A : Type) : Type :=
  | Return (a : A)
  | Raise (e : exn).
Arguments Return {A} a.
Arguments Raise {A} e.

#[export] Instance exn_eq_dec : EqDecision exn.
Proof. solve_decision. Defined.

#[export] Instance result_eq_dec {A} `{EqDecision A} : EqDecision (result A).
Proof. solve_decision. Defined.

Inductive level : Type := INFO | WARNING | ERROR.

(** What [print] writes: a text, the table of [describe()], or a series
    of numbers indexed by group key. *)
Inductive output : Type :=
  | Text (s : string)
  | Describe (d : DataFrame)
  | Series (s : list (cell * Qc)).

(** What a panel shows.  Styling arguments (palette, colours, markers,
    tick rotation, grid) carry no data and are left out. *)
Inductive plotdata : Type :=
  | CountBars (bars : list (cell * nat))
  | BarH (bars : list (cell * Qc))
  | Boxes (samples : list (cell * list Qc))
  | Line (points : list (cell * Qc)).

Record axes : Type := Axes {
  plot : option plotdata;
  title : string;
  xlabel : string;
  ylabel : string
}.

Definition blank : axes := Axes None "" "" "".

(** The 2x2 grid returned by [plt.subplots(2, 2)]. *)
Inductive pos : Type := P00 | P01 | P10 | P11.

Record figure : Type := Figure {
  suptitle : string;
  ax00 : axes; ax01 : axes; ax10 : axes; ax11 : axes
}.

Definition ax (p : pos) (f : figure) : axes :=
  match p with
  | P00 => ax00 f | P01 => ax01 f | P10 => ax10 f | P11 => ax11 f
  end.

Definition set_ax (p : pos) (a : axes) (f : figure) : figure :=
  match p with
  | P00 => Figure (suptitle f) a (ax01 f) (ax10 f) (ax11 f)
  | P01 => Figure (suptitle f) (ax00 f) a (ax10 f) (ax11 f)
  | P10 => Figure (suptitle f) (ax00 f) (ax01 f) a (ax11 f)
  | P11 => Figure (suptitle f) (ax00 f) (ax01 f) (ax10 f) a
  end.

Inductive event : Type :=
  | EvRead (path : string)
  | EvLog (l : level) (m : string)
  | EvPrint (o : output)
  | EvSubplots
  | EvShow (f : figure).

(** The analyzer object ([filename], [df]), the figure under construction
    and everything written so far, oldest first. *)
Record state : Type := State {
  filename : string;
  df : option DataFrame;
  fig : figure;
  trace : list event
}.

(** [FashionAnalyzer(filename)]. *)
Definition init (path : string) : state :=
  State path None (Figure "" blank blank blank blank) [].

(** A method body: it runs on a state and returns or raises; what it
    did before raising stays done. *)
Definition M (A : Type) : Type := state → result A * state.

#[export] Instance M_ret : MRet M := λ A a s, (Return a, s).
#[export] Instance M_bind : MBind M := λ A B k m s,
  match m s with
  | (Return a, s') => k a s'
  | (Raise e, s') => (Raise e, s')
  end.

Definition raise {A} (e : exn) : M A := λ s, (Raise e, s).

Definition lift {A} (r : result A) : M A := λ s, (r, s).

(** [try: body / except Exception as e: handler e]. *)
Definition try_except {A} (body : M A) (handler : exn → M A) : M A := λ s,
  match body s with
  | (Return a, s') => (Return a, s')
  | (Raise e, s') => handler e s'
  end.

Definition emit (e : event) : M unit := λ s,
  (Return (), State (filename s) (df s) (fig s) (trace s ++ [e])).

Definition log (l : level) (m : string) : M unit := emit (EvLog l m).
Definition print (o : output) : M unit := emit (EvPrint o).

Definition get_filename : M string := λ s, (Return (filename s), s).

Definition set_df (d : DataFrame) : M unit := λ s,
  (Return (), State (filename s) (Some d) (fig s) (trace s)).

(** Reading [self.df] for a method call or a subscript; on the initial
    [None] that raises. *)
Definition self_df : M DataFrame := λ s,
  match df s with
  | Some d => (Return d, s)
  | None => (Raise (AttributeError "'NoneType' object has no attribute"), s)
  end.

Definition update_ax (p : pos) (f : axes → axes) : M unit := λ s,
  (Return (), State (filename s) (df s) (set_ax p (f (ax p (fig s))) (fig s))
                    (trace s)).

Definition draw (p : pos) (d : plotdata) : M unit :=
  update_ax p (λ a, Axes (Some d) (title a) (xlabel a) (ylabel a)).
Definition set_title (p : pos) (t : string) : M unit :=
  update_ax p (λ a, Axes (plot a) t (xlabel a) (ylabel a)).
Definition set_xlabel (p : pos) (t : string) : M unit :=
  update_ax p (λ a, Axes (plot a) (title a) t (ylabel a)).
Definition set_ylabel (p : pos) (t : string) : M unit :=
  update_ax p (λ a, Axes (plot a) (title a) (xlabel a) t).

(** [plt.subplots(2, 2)] followed by [fig.suptitle(t)]: a fresh figure. *)
Definition subplots (t : string) : M unit := λ s,
  (Return (), State (filename s) (df s) (Figure t blank blank blank blank)
                    (trace s ++ [EvSubplots])).

(** [plt.tight_layout(); plt.show()]: the figure as it stands is shown. *)
Definition show : M unit := λ s,
  (Return (), State (filename s) (df s) (fig s) (trace s ++ [EvShow (fig s)])).

End Py.

Import Py.

(** ** The methods of [FashionAnalyzer] *)

Module FashionAnalyzer.

(** [df[name]] and [df.groupby(name)]: [KeyError] on an absent column. *)
Definition column (name : string) (d : DataFrame) : result (list cell) :=
  match col_index name (columns d) with
  | Some i => Return (cell_at i <$> rows d)
  | None => Raise (KeyError name)
  end.

(** A seaborn variable [x=name] or [y=name] looked up in [data]; the
    message is the beginning of the one seaborn gives. *)
Definition variable (name : string) (d : DataFrame) : result (list cell) :=
  match col_index name (columns d) with
  | Some i => Return (cell_at i <$> rows d)
  | None => Raise (ValueError ("Could not interpret value `" ++ name ++ "`"))
  end.

(** [df.groupby(key)[val]]: the groups in key order, each with its cells
    of column [val]; [KeyError] when either column is absent. *)
Definition groupby (key val : string) (d : DataFrame)
  : result (list (cell * list cell)) :=
  match column key d with
  | Raise e => Raise e
  | Return ks =>
      match column val d with
      | Raise _ => Raise (KeyError ("Column not found: " ++ val))
      | Return vs => Return (groups (zip ks vs))
      end
  end.

(** A numeric aggregate ([median], [mean]) applied to every group. *)
Fixpoint aggregate (f : list Qc → Qc) (how : string)
    (gs : list (cell * list cell)) : result (list (cell * Qc)) :=
  match gs with
  | [] => Return []
  | (k, vs) :: gs' =>
      match numeric vs with
      | None =>
          Raise (TypeError
                   ("agg function failed [how->" ++ how ++ ",dtype->object]"))
      | Some qs =>
          match aggregate f how gs' with
          | Raise e => Raise e
          | Return r => Return ((k, f qs) :: r)
          end
      end
  end.

(** [df.groupby('Category')['Popularity_Score'].median()
       .sort_values(ascending=False)]. *)
Definition popularity_by_category (d : DataFrame) : result (list (cell * Qc)) :=
  match groupby "Category" "Popularity_Score" d with
  | Raise e => Raise e
  | Return gs =>
      match aggregate median "median" gs with
      | Raise e => Raise e
      | Return m => Return (sort_values_desc m)
      end
  end.

(** The sample drawn as one box: the numbers of the rows of one category.
    Categories appear in order of first appearance. *)
Definition samples_by_category (xy : list (cell * cell))
  : result (list (cell * list Qc)) :=
  (fix go (ks : list cell) : result (list (cell * list Qc)) :=
     match ks with
     | [] => Return []
     | k :: ks' =>
         match numeric (group_values k xy) with
         | None => Raise (TypeError "could not convert string to float")
         | Some qs =>
             match go ks' with
             | Raise e => Raise e
             | Return r => Return ((k, qs) :: r)
             end
         end
     end) (unique (filter (λ c, notna c = true) (xy.*1))).

Fixpoint times (s : string) (n : nat) : string :=
  match n with
  | O => ""
  | S n' => s ++ times s n'
  end.

Definition nl : string := String (Ascii.ascii_of_nat 10) "".

Section Methods.

(** The files on disk: what [pd.read_csv(path)] returns or raises. *)
Variable read_csv : string → result DataFrame.

Definition pd_read_csv (path : string) : M DataFrame :=
  emit (EvRead path) ;; lift (read_csv path).

Definition load_data : M bool :=
  try_except
    (path ← get_filename;
     raw ← pd_read_csv path;
     set_df raw ;;
     d ← self_df;
     set_df (drop_duplicates (fillna d)) ;;
     log INFO "Данные загружены и очищены." ;;
     mret true)
    (λ e,
       match e with
       | FileNotFoundError _ =>
           path ← get_filename;
           log ERROR ("Файл " ++ path ++ " не найден.") ;;
           mret false
       | _ =>
           log ERROR ("Ошибка загрузки данных: " ++ exn_str e) ;;
           mret false
       end).

Definition print_text_stats : M unit :=
  print (Text (nl ++ times "=" 40)) ;;
  print (Text " ОСНОВНАЯ СТАТИСТИКА ") ;;
  print (Text (times "=" 40)) ;;
  d ← self_df;
  print (Describe d) ;;
  d ← self_df;
  if has_column "Popularity_Score" d then
    print (Text (nl ++ times "-" 40)) ;;
    print (Text "Медиана популярности по категориям:") ;;
    print (Text (times "-" 40)) ;;
    d ← self_df;
    popularity ← lift (popularity_by_category d);
    print (Series popularity)
  else mret ().

(** The four guarded blocks of [plot_all_charts], one per panel. *)

(** Panel 1, [countplot] of [Color] in [value_counts] order. *)
Definition plot_colors : M unit :=
  d ← self_df;
  color ← lift (column "Color" d);
  let order := (value_counts color).*1 in
  draw P00 (CountBars ((λ k, (k, count_of k color)) <$> order)) ;;
  set_title P00 "Самые трендовые цвета" ;;
  set_xlabel P00 "Цвет" ;;
  set_ylabel P00 "Количество".

(** Panel 2, mean [Price(USD)] per [Brand], ascending, as horizontal bars. *)
Definition plot_prices : M unit :=
  d ← self_df;
  gs ← lift (groupby "Brand" "Price(USD)" d);
  means ← lift (aggregate mean "mean" gs);
  let brand_price := sort_values means in
  draw P01 (BarH brand_price) ;;
  set_title P01 "Средняя цена по брендам (USD)" ;;
  set_xlabel P01 "Средняя цена, USD" ;;
  set_ylabel P01 "Бренд".

(** Panel 3, [boxplot] of [Popularity_Score] for every [Style]. *)
Definition plot_popularity : M unit :=
  d ← self_df;
  x ← lift (variable "Style" d);
  y ← lift (variable "Popularity_Score" d);
  samples ← lift (samples_by_category (zip x y));
  draw P10 (Boxes samples) ;;
  set_title P10 "Разброс популярности в зависимости от стиля" ;;
  set_xlabel P10 "Стиль" ;;
  set_ylabel P10 "Оценка популярности".

(** Panel 4, [lineplot] of the mean [Customer_Rating] at every [Season]. *)
Definition plot_ratings : M unit :=
  d ← self_df;
  x ← lift (variable "Season" d);
  y ← lift (variable "Customer_Rating" d);
  points ← lift (aggregate mean "mean" (groups (zip x y)));
  draw P11 (Line points) ;;
  set_title P11 "Динамика рейтинга покупателей по сезонам" ;;
  set_xlabel P11 "Сезон" ;;
  set_ylabel P11 "Средний рейтинг".

Definition warn (what : string) (e : exn) : M unit :=
  log WARNING (what ++ exn_str e).

Definition plot_all_charts : M unit :=
  subplots "Комплексный анализ зимних модных трендов (2023-2025)" ;;
  try_except plot_colors (warn "Не удалось построить график цветов: ") ;;
  try_except plot_prices (warn "Не удалось построить график цен: ") ;;
  try_except plot_popularity
    (warn "Не удалось построить boxplot популярности: ") ;;
  try_except plot_ratings (warn "Не удалось построить график рейтинга: ") ;;
  show.

Definition run : M unit :=
  ok ← load_data;
  if ok : bool then
    print_text_stats ;;
    plot_all_charts ;;
    log INFO "Анализ завершен успешно!"
  else
    log ERROR "Анализ не может быть выполнен из-за ошибки загрузки данных.".

(** The script: [FashionAnalyzer(PATH).run()]. *)
Definition PATH : string := "Winter_Fashion_Trends_Dataset.csv".

Definition main : result unit * state := run (init PATH).

End Methods.

End FashionAnalyzer.

Import FashionAnalyzer.

(** ** Vocabulary of the statements *)

Module Spec.

(** Two raw rows differ only in which cells are missing: position by
    position the cells are equal, or one of the two is missing. *)
Definition differ_only_in_missing (r1 r2 : row) : Prop :=
  Forall2 (λ a b, a = b ∨ isna a ≠ isna b) (cells r1) (cells r2).

(** Position by position the cells are equal, or one is missing and the
    other is zero. *)
Definition differ_only_by_missing_zero (r1 r2 : row) : Prop :=
  Forall2 (λ a b, a = b ∨ (a = NaN ∧ b = zero) ∨ (a = zero ∧ b = NaN))
          (cells r1) (cells r2).

(** Events by origin: [print] belongs to the report, the figure events to
    the charts. *)
Definition is_read (e : event) : bool :=
  match e with EvRead _ => true | _ => false end.
Definition is_print (e : event) : bool :=
  match e with EvPrint _ => true | _ => false end.
Definition is_warning (e : event) : bool :=
  match e with EvLog WARNING _ => true | _ => false end.
Definition is_chart (e : event) : bool :=
  match e with EvSubplots | EvShow _ => true | _ => false end.

Definition reporter_ran (tr : list event) : bool := existsb is_print tr.
Definition visualizer_ran (tr : list event) : bool := existsb is_chart tr.

(** The events a method adds when started in [s]. *)
Definition emitted {A} (m : M A) (s : state) : list event :=
  drop (length (trace s)) (trace (m s).2).

(** The guarded block behind each position of the grid and the prefix of
    its warning. *)
Definition panel (p : pos) : M unit :=
  match p with
  | P00 => FashionAnalyzer.plot_colors
  | P01 => FashionAnalyzer.plot_prices
  | P10 => FashionAnalyzer.plot_popularity
  | P11 => FashionAnalyzer.plot_ratings
  end.

Definition panel_warning (p : pos) : string :=
  match p with
  | P00 => "Не удалось построить график цветов: "
  | P01 => "Не удалось построить график цен: "
  | P10 => "Не удалось построить boxplot популярности: "
  | P11 => "Не удалось построить график рейтинга: "
  end.

(** What one block, run on its own from [s], leaves at its position and
    in the log. *)
Definition panel_axes (p : pos) (s : state) : axes :=
  match panel p s with
  | (Return _, s') => ax p (fig s')
  | (Raise _, _) => blank
  end.

Definition panel_log (p : pos) (s : state) : list event :=
  match panel p s with
  | (Return _, _) => []
  | (Raise e, _) => [EvLog WARNING (panel_warning p ++ exn_str e)]
  end.

Definition figure_title : string :=
  "Комплексный анализ зимних модных трендов (2023-2025)".

(** The state in which [load_data] leaves an analyzer whose file holds
    [raw]. *)
Definition loaded (s : state) (raw : DataFrame) : state :=
  State (filename s) (Some (clean raw)) (fig s)
        (trace s ++ [EvRead (filename s);
                     EvLog INFO "Данные загружены и очищены."]).

(** The two closing log lines of [run] and the line [load_data] writes for
    an error. *)
Definition completion : string := "Анализ завершен успешно!".
Definition aborted : string :=
  "Анализ не может быть выполнен из-за ошибки загрузки данных.".

Definition load_error (path : string) (e : exn) : string :=
  match e with
  | FileNotFoundError _ => "Файл " ++ path ++ " не найден."
  | _ => "Ошибка загрузки данных: " ++ exn_str e
  end.

Definition is_completion (e : event) : bool :=
  match e with
  | EvLog INFO m => bool_decide (m = completion)
  | _ => false
  end.

Definition run_completed (tr : list event) : bool := existsb is_completion tr.

(** A column is numeric when none of its cells is a text. *)
Definition is_text (c : cell) : bool :=
  match c with Str _ => true | _ => false end.

Definition numeric_column (name : string) (d : DataFrame) : Prop :=
  ∀ vs, FashionAnalyzer.column name d = Return vs →
        Forall (λ c, is_text c = false) vs.

Definition is_series (e : event) : bool :=
  match e with EvPrint (Series _) => true | _ => false end.

(** What the report prints before and around the ranking. *)
Definition report_header (d : DataFrame) : list event :=
  [EvPrint (Text (FashionAnalyzer.nl ++ FashionAnalyzer.times "=" 40));
   EvPrint (Text " ОСНОВНАЯ СТАТИСТИКА ");
   EvPrint (Text (FashionAnalyzer.times "=" 40));
   EvPrint (Describe d)].

Definition ranking_header : list event :=
  [EvPrint (Text (FashionAnalyzer.nl ++ FashionAnalyzer.times "-" 40));
   EvPrint (Text "Медиана популярности по категориям:");
   EvPrint (Text (FashionAnalyzer.times "-" 40))].

(** The cells of column [name] in the rows whose [key] cell is [k]. *)
Definition cells_where (key : string) (k : cell) (name : string)
    (d : DataFrame) : list cell :=
  match col_index key (columns d), col_index name (columns d) with
  | Some i, Some j => cell_at j <$> filter (λ r, cell_at i r = k) (rows d)
  | _, _ => []
  end.

(** The table a block sees decides what it does: run on an empty figure
    with the same table, it raises or draws the same panel. *)
Definition alone (p : pos) (body : M unit) (o : option DataFrame)
  : result axes :=
  match body (State "" o (Figure "" blank blank blank blank) []) with
  | (Return _, s') => Return (ax p (fig s'))
  | (Raise e, _) => Raise e
  end.

(** A block touches the figure at its own position only, and only when it
    does not raise; what it draws depends on the table alone, and when it
    returns it has drawn. *)
Definition isolated (p : pos) (body : M unit) : Prop :=
  ∃ f : option DataFrame → result axes,
    (∀ o a, f o = Return a → is_Some (plot a)) ∧
    ∀ s,
      body s = match f (df s) with
               | Return a =>
                   (Return (),
                    State (filename s) (df s) (set_ax p a (fig s)) (trace s))
               | Raise e => (Raise e, s)
               end.

End Spec.

Import Spec.

Open Scope list_scope.

(** ** Sample tables *)

Definition two_columns : list string := ["Price(USD)"; "Popularity_Score"].

(** One price is missing in the first row and is 3 in the second. *)
Definition gap_vs_three : DataFrame :=
  DF two_columns [Row 0 [NaN; num 5]; Row 1 [num 3; num 5]].

(** One price is missing in the first row and is 0 in the second. *)
Definition gap_vs_zero : DataFrame :=
  DF two_columns [Row 0 [NaN; num 5]; Row 1 [num 0; num 5]].


(** A directory with one file, whose table has a gap and a repeated row. *)
Definition trends : DataFrame :=
  DF ["Category"; "Color"; "Popularity_Score"]
     [Row 0 [Str "Coats"; Str "Black"; num 80];
      Row 1 [Str "Coats"; Str "Black"; num 80];
      Row 2 [Str "Coats"; NaN; num 60]].

Definition one_file (path : string) : result DataFrame :=
  if decide (path = PATH) then Return trends
  else Raise (FileNotFoundError "No such file or directory").

(** A directory whose only file cannot be parsed. *)
Definition bad_file (path : string) : result DataFrame :=
  if decide (path = PATH) then Raise (OtherError "No columns to parse from file")
  else Raise (FileNotFoundError "No such file or directory").

(** A table without the [Color] column; the columns of the other three
    charts are there. *)
Definition no_color : DataFrame :=
  DF ["Brand"; "Price(USD)"; "Style"; "Popularity_Score"; "Season";
      "Customer_Rating"]
     [Row 0 [Str "A"; num 100; Str "Casual"; num 80; Str "Winter"; num 4];
      Row 1 [Str "B"; num 60; Str "Sport"; num 60; Str "Winter"; num 2]].

(** Tables with a [Popularity_Score] column and no [Category] column. *)
Definition scores_only : DataFrame :=
  DF ["Popularity_Score"] [Row 0 [num 80]; Row 1 [num 60]].

Definition brands_and_scores : DataFrame :=
  DF ["Brand"; "Popularity_Score"]
     [Row 0 [Str "A"; num 80]; Row 1 [Str "B"; NaN]].

Definition colors_and_scores : DataFrame :=
  DF ["Color"; "Popularity_Score"] [Row 0 [Str "Black"; num 70]].

Definition always (d : DataFrame) (path : string) : result DataFrame :=
  Return d.

Definition styles_and_scores : DataFrame :=
  DF ["Style"; "Popularity_Score"]
     [Row 0 [Str "Casual"; num 80]; Row 1 [Str "Sport"; num 60]].

(** A table without a [Popularity_Score] column. *)
Definition prices_only : DataFrame :=
  DF ["Brand"; "Price(USD)"] [Row 0 [Str "A"; num 100]; Row 1 [Str "B"; NaN]].

(** Both columns are there, but one score is a text. *)
Definition worded_scores : DataFrame :=
  DF ["Category"; "Popularity_Score"]
     [Row 0 [Str "Coats"; num 80]; Row 1 [Str "Hats"; Str "high"]].

(** The scenario of the specification with a second category. *)
Definition coats_and_hats : DataFrame :=
  DF ["Category"; "Popularity_Score"]
     [Row 0 [Str "Hats"; num 10];
      Row 1 [Str "Coats"; num 80];
      Row 2 [Str "Coats"; num 80];
      Row 3 [Str "Coats"; num 60];
      Row 4 [Str "Hats"; NaN]].

(** ** Vocabulary of the further properties *)

(** The columns each guarded block of [plot_all_charts] names. *)
Definition required_columns (p : pos) : list string :=
  match p with
  | P00 => ["Color"]
  | P01 => ["Brand"; "Price(USD)"]
  | P10 => ["Style"; "Popularity_Score"]
  | P11 => ["Season"; "Customer_Rating"]
  end.

(** The three lines [print_text_stats] prints before it touches the
    table. *)
Definition banner : list event :=
  [EvPrint (Text (FashionAnalyzer.nl ++ FashionAnalyzer.times "=" 40));
   EvPrint (Text " ОСНОВНАЯ СТАТИСТИКА ");
   EvPrint (Text (FashionAnalyzer.times "=" 40))].

(** The figure [plot_all_charts] leaves when started in [s]. *)
Definition charts (s : state) : figure := fig (plot_all_charts s).2.

(** A table with every column the charts name. *)
Definition full_table : DataFrame :=
  DF ["Category"; "Color"; "Brand"; "Price(USD)"; "Style";
      "Popularity_Score"; "Season"; "Customer_Rating"]
     [Row 0 [Str "Coats"; Str "Black"; Str "A"; num 100; Str "Casual";
             num 80; Str "Winter"; num 4];
      Row 1 [Str "Coats"; Str "Black"; Str "A"; num 100; Str "Casual";
             num 80; Str "Winter"; num 4];
      Row 2 [Str "Hats"; Str "Red"; Str "B"; num 40; Str "Sport";
             NaN; Str "Autumn"; num 2];
      Row 3 [Str "Coats"; Str "Black"; Str "A"; num 60; Str "Sport";
             num 60; Str "Winter"; num 5]].

(** * Properties *)

(** ** Cleaning: zero fill and deduplication *)

Section CleanFacts.

Implicit Types (rs : list row) (seen : list (list cell)) (d : DataFrame).

Lemma fill_cell_notna c : isna (fill_cell c) = false.
Proof. by destruct c. Qed.

Lemma fill_cell_idemp c : fill_cell (fill_cell c) = fill_cell c.
Proof. by destruct c. Qed.

Lemma fill_cell_id c : isna c = false → fill_cell c = c.
Proof. by destruct c. Qed.

Lemma fill_row_idemp r : fill_row (fill_row r) = fill_row r.
Proof.
  unfold fill_row; simpl. f_equal.
  rewrite map_map. apply map_ext. intros c. apply fill_cell_idemp.
Qed.

Lemma duplicated_from_length seen rs :
  length (duplicated_from seen rs) = length rs.
Proof.
  revert seen. induction rs as [|r rs IH]; intros seen; simpl; [done|].
  case_decide; simpl; by rewrite IH.
Qed.

(** The mask at position [i] says whether the cells of row [i] were seen
    before: initially, or in one of the rows above. *)
Lemma duplicated_from_lookup seen rs i r :
  rs !! i = Some r →
  duplicated_from seen rs !! i
  = Some (bool_decide (cells r ∈ seen ∨ cells r ∈ cells <$> take i rs)).
Proof.
  revert seen i. induction rs as [|r0 rs IH]; intros seen i Hi; [done|].
  destruct i as [|i]; simpl in *.
  - inversion Hi; subst. case_decide; simpl; f_equal; symmetry.
    + apply bool_decide_eq_true_2. by left.
    + apply bool_decide_eq_false_2. intros [?|H']; [done|].
      by apply elem_of_nil in H'.
  - case_decide as Hin; simpl; rewrite (IH _ _ Hi); f_equal;
      apply bool_decide_ext; rewrite !elem_of_cons; [|tauto].
    split; [tauto|]. intros [?|[->|?]]; tauto.
Qed.

(** Dropping by the mask, one row at a time. *)
Lemma drop_duplicated_cons seen r rs :
  drop_mask (duplicated_from seen (r :: rs)) (r :: rs)
  = if decide (cells r ∈ seen)
    then drop_mask (duplicated_from seen rs) rs
    else r :: drop_mask (duplicated_from (cells r :: seen) rs) rs.
Proof. simpl. by case_decide. Qed.

Lemma drop_mask_filter (mask : list bool) rs :
  length mask = length rs →
  drop_mask mask rs = (filter (λ rm, rm.2 = false) (zip rs mask)).*1.
Proof.
  revert mask. induction rs as [|r rs IH]; intros [|m mask] Hlen; try done.
  simpl in *. injection Hlen as Hlen. rewrite (IH _ Hlen).
  destruct m; [rewrite filter_cons_False | rewrite filter_cons_True]; done.
Qed.

Lemma drop_duplicated_sublist seen rs :
  drop_mask (duplicated_from seen rs) rs `sublist_of` rs.
Proof.
  revert seen. induction rs as [|r rs IH]; intros seen.
  - constructor.
  - rewrite drop_duplicated_cons. case_decide.
    + by apply sublist_cons.
    + by apply sublist_skip.
Qed.

Lemma drop_duplicated_fresh seen rs r :
  r ∈ drop_mask (duplicated_from seen rs) rs → cells r ∉ seen.
Proof.
  revert seen. induction rs as [|r0 rs IH]; intros seen.
  - simpl. by intros ?%elem_of_nil.
  - rewrite drop_duplicated_cons. case_decide as Hin.
    + apply IH.
    + rewrite elem_of_cons. intros [->|Hr]; [done|].
      apply IH in Hr. rewrite elem_of_cons in Hr. tauto.
Qed.

Lemma drop_duplicated_NoDup seen rs :
  NoDup (cells <$> drop_mask (duplicated_from seen rs) rs).
Proof.
  revert seen. induction rs as [|r rs IH]; intros seen.
  - constructor.
  - rewrite drop_duplicated_cons. case_decide; [apply IH|].
    rewrite fmap_cons. apply NoDup_cons. split; [|apply IH].
    intros (r' & Heq & Hr')%list_elem_of_fmap.
    apply drop_duplicated_fresh in Hr'. rewrite Heq in Hr'.
    apply Hr'. by left.
Qed.

Lemma drop_duplicated_complete seen rs r :
  r ∈ rs →
  cells r ∈ seen ∨ cells r ∈ cells <$> drop_mask (duplicated_from seen rs) rs.
Proof.
  revert seen. induction rs as [|r0 rs IH]; intros seen.
  - by intros ?%elem_of_nil.
  - rewrite drop_duplicated_cons, elem_of_cons. intros [->|Hr].
    + case_decide; [by left|]. right. rewrite fmap_cons. by left.
    + case_decide; [by apply IH|].
      destruct (IH (cells r0 :: seen) Hr) as [Hs|Hs].
      * apply elem_of_cons in Hs as [Hs|Hs]; [|by left].
        right. rewrite fmap_cons, Hs. by left.
      * right. rewrite fmap_cons. by right.
Qed.

(** A table without repeated rows is left as it is. *)
Lemma drop_duplicated_id seen rs :
  NoDup (cells <$> rs) → (∀ r, r ∈ rs → cells r ∉ seen) →
  drop_mask (duplicated_from seen rs) rs = rs.
Proof.
  revert seen. induction rs as [|r rs IH]; intros seen Hnd Hseen; [done|].
  rewrite drop_duplicated_cons. rewrite fmap_cons in Hnd.
  apply NoDup_cons in Hnd as [Hr Hnd].
  case_decide as Hin.
  - exfalso. by apply (Hseen r); [left|].
  - f_equal. apply IH; [done|]. intros r' Hr'.
    rewrite elem_of_cons. intros [Heq|Hs].
    + apply Hr. rewrite <- Heq. by apply list_elem_of_fmap_2.
    + by apply (Hseen r'); [right|].
Qed.

Lemma clean_rows d :
  rows (clean d)
  = drop_mask (duplicated (fill_row <$> rows d)) (fill_row <$> rows d).
Proof. done. Qed.

Lemma clean_rows_filled d r : r ∈ rows (clean d) → fill_row r = r.
Proof.
  rewrite clean_rows. intros Hr.
  assert (r ∈ fill_row <$> rows d) as (r0 & -> & _)%list_elem_of_fmap.
  { eapply elem_of_sublist; [done|]. apply drop_duplicated_sublist. }
  apply fill_row_idemp.
Qed.

End CleanFacts.

Section CleanTheorems.

Implicit Types (rs : list row) (seen : list (list cell)) (d : DataFrame).

Lemma duplicated_from_ext seen seen' rs :
  (∀ x, x ∈ seen ↔ x ∈ seen') →
  duplicated_from seen rs = duplicated_from seen' rs.
Proof.
  revert seen seen'. induction rs as [|r rs IH]; intros seen seen' Heq; [done|].
  simpl. destruct (decide (cells r ∈ seen)) as [Hin|Hin];
    destruct (decide (cells r ∈ seen')) as [Hin'|Hin'];
    try (exfalso; apply Heq in Hin || apply Heq in Hin'; tauto).
  - f_equal. by apply IH.
  - f_equal. apply IH. intros x. rewrite !elem_of_cons, Heq. tauto.
Qed.

Lemma drop_duplicated_app seen rs1 rs2 :
  drop_mask (duplicated_from seen (rs1 ++ rs2)) (rs1 ++ rs2)
  = drop_mask (duplicated_from seen rs1) rs1
    ++ drop_mask (duplicated_from ((cells <$> rs1) ++ seen) rs2) rs2.
Proof.
  revert seen. induction rs1 as [|r rs1 IH]; intros seen; [done|].
  rewrite <- app_comm_cons, !drop_duplicated_cons.
  case_decide as Hin.
  - rewrite IH. f_equal. f_equal. apply duplicated_from_ext.
    intros x. rewrite fmap_cons, <- app_comm_cons, elem_of_cons.
    split; [tauto|]. intros [->|?]; [|done]. apply elem_of_app. by right.
  - rewrite IH, <- app_comm_cons. f_equal. f_equal. f_equal.
    apply duplicated_from_ext.
    intros x. rewrite fmap_cons, <- app_comm_cons, !elem_of_app, !elem_of_cons,
      elem_of_app. tauto.
Qed.

(** C3: cleaning is idempotent: filling the missing cells with zero and
    dropping duplicate rows (first occurrence kept) a second time returns
    the table the first pass produced. *)
Theorem clean_idempotent d : clean (clean d) = clean d.
Proof.
  assert (fill_row <$> rows (clean d) = rows (clean d)) as Hfill.
  { rewrite <- (list_fmap_id (rows (clean d))) at 2.
    apply list_fmap_ext. intros _ r Hr%list_elem_of_lookup_2.
    by apply (clean_rows_filled d). }
  change (clean (clean d)) with
    (DF (columns (clean d))
        (drop_mask (duplicated (fill_row <$> rows (clean d)))
                   (fill_row <$> rows (clean d)))).
  rewrite Hfill. unfold duplicated.
  rewrite drop_duplicated_id; [by destruct (clean d)| |].
  - rewrite clean_rows. apply drop_duplicated_NoDup.
  - intros r _. apply not_elem_of_nil.
Qed.

(** C4: deduplication keeps exactly the first occurrence of every distinct
    row, unchanged, and the survivors stay in their original order: the
    mask marks a row exactly when an earlier row has the same cells, the
    result is the unmarked rows in table order, a row not preceded by an
    equal one survives between the survivors of what is above and of what
    is below it, a row preceded by an equal one is removed, no two
    survivors are equal and every row of the table has a survivor equal to
    it. *)
Theorem drop_duplicates_keeps_first d :
  columns (drop_duplicates d) = columns d
  ∧ rows (drop_duplicates d) `sublist_of` rows d
  ∧ (∀ i r, rows d !! i = Some r →
       duplicated (rows d) !! i = Some true
       ↔ ∃ j r', j < i ∧ rows d !! j = Some r' ∧ cells r' = cells r)
  ∧ rows (drop_duplicates d)
    = (filter (λ rm, rm.2 = false) (zip (rows d) (duplicated (rows d)))).*1
  ∧ (∀ above r below, rows d = above ++ r :: below →
       ∃ kept_above kept_below,
         kept_above `sublist_of` above ∧ kept_below `sublist_of` below ∧
         rows (drop_duplicates d)
         = kept_above
           ++ (if decide (cells r ∈ cells <$> above) then [] else [r])
           ++ kept_below)
  ∧ NoDup (cells <$> rows (drop_duplicates d))
  ∧ (∀ r, r ∈ rows d → cells r ∈ cells <$> rows (drop_duplicates d)).
Proof.
  split; [done|]. split; [apply drop_duplicated_sublist|].
  split; [|split; [|split; [|split]]].
  - intros i r Hi. unfold duplicated.
    rewrite (duplicated_from_lookup _ _ _ _ Hi).
    split.
    + intros [= Hb]. apply bool_decide_eq_true_1 in Hb as [Hb|Hb].
      { by apply elem_of_nil in Hb. }
      apply list_elem_of_fmap in Hb as (r' & Heq & Hr').
      apply elem_of_take in Hr' as (j & Hj & Hlt). by exists j, r'.
    + intros (j & r' & Hlt & Hj & Heq). f_equal.
      apply bool_decide_eq_true_2. right. rewrite <- Heq.
      apply list_elem_of_fmap_2, elem_of_take. eauto.
  - simpl. apply drop_mask_filter, duplicated_from_length.
  - intros above r below Hsplit. simpl. rewrite Hsplit. unfold duplicated.
    rewrite drop_duplicated_app, drop_duplicated_cons, app_nil_r.
    case_decide; eexists _, _;
      (split; [apply drop_duplicated_sublist|]);
      (split; [apply drop_duplicated_sublist|done]).
  - apply drop_duplicated_NoDup.
  - intros r Hr. simpl.
    destruct (drop_duplicated_complete [] _ _ Hr) as [Hs|Hs]; [|done].
    by apply elem_of_nil in Hs.
Qed.

Lemma drop_duplicates_keeps_first_witness :
  (columns (drop_duplicates trends) = columns trends
   ∧ rows (drop_duplicates trends) `sublist_of` rows trends
   ∧ (∀ i r, rows trends !! i = Some r →
        duplicated (rows trends) !! i = Some true
        ↔ ∃ j r', j < i ∧ rows trends !! j = Some r' ∧ cells r' = cells r)
   ∧ rows (drop_duplicates trends)
     = (filter (λ rm, rm.2 = false)
               (zip (rows trends) (duplicated (rows trends)))).*1
   ∧ (∀ above r below, rows trends = above ++ r :: below →
        ∃ kept_above kept_below,
          kept_above `sublist_of` above ∧ kept_below `sublist_of` below ∧
          rows (drop_duplicates trends)
          = kept_above
            ++ (if decide (cells r ∈ cells <$> above) then [] else [r])
            ++ kept_below)
   ∧ NoDup (cells <$> rows (drop_duplicates trends))
   ∧ (∀ r, r ∈ rows trends → cells r ∈ cells <$> rows (drop_duplicates trends)))
  ∧ duplicated (rows trends) = [false; true; false]
  ∧ rows (drop_duplicates trends)
    = [Row 0 [Str "Coats"; Str "Black"; num 80];
       Row 2 [Str "Coats"; NaN; num 60]].
Proof.
  split; [apply (drop_duplicates_keeps_first trends)|]. split; reflexivity.
Defined.

(** The scenario of the specification: of a row, its copy and a third row,
    two rows remain after cleaning, and the missing colour is zero. *)
Example clean_trends :
  rows (clean trends)
  = [Row 0 [Str "Coats"; Str "Black"; num 80];
     Row 2 [Str "Coats"; num 0; num 60]].
Proof. reflexivity. Qed.

End CleanTheorems.

Section FillBeforeDedup.

Implicit Types (rs : list row) (seen : list (list cell)) (d : DataFrame).

Lemma differ_only_by_missing_zero_fill r1 r2 :
  differ_only_by_missing_zero r1 r2 →
  cells (fill_row r1) = cells (fill_row r2).
Proof.
  unfold differ_only_by_missing_zero. simpl.
  induction 1 as [|a b l1 l2 Hab _ IH]; [done|].
  simpl. f_equal; [|done].
  destruct Hab as [->|[[-> ->]|[-> ->]]]; done.
Qed.

(** A row that the mask marks contributes nothing to the result. *)
Lemma drop_duplicated_delete seen rs j r :
  rs !! j = Some r →
  duplicated_from seen rs !! j = Some true →
  drop_mask (duplicated_from seen rs) rs
  = drop_mask (duplicated_from seen (delete j rs)) (delete j rs).
Proof.
  intros Hj Hmask. rewrite (duplicated_from_lookup _ _ _ _ Hj) in Hmask.
  injection Hmask as Hmask. apply bool_decide_eq_true_1 in Hmask.
  rewrite delete_take_drop. rewrite <- (take_drop_middle rs j r Hj) at 1 2.
  rewrite !drop_duplicated_app, drop_duplicated_cons.
  rewrite decide_True; [done|]. rewrite elem_of_app. tauto.
Qed.

(** C9, as the code has it: the zero fill runs before the deduplication,
    so two raw rows that differ only at cells that are missing in one and
    zero in the other are identical once filled; the later one is marked
    and removed by the cleaning step, which gives the result it would give
    without that row, while the filled cells of the earlier one are in the
    result.  The later row need not be a duplicate in the raw file: when no
    raw row above it has its cells, deduplication of the raw table keeps
    it. *)
Theorem fill_before_dedup_merges d i j r1 r2 :
  i < j → rows d !! i = Some r1 → rows d !! j = Some r2 →
  differ_only_by_missing_zero r1 r2 →
  cells (fill_row r1) = cells (fill_row r2)
  ∧ duplicated (rows (fillna d)) !! j = Some true
  ∧ rows (clean d) = rows (clean (DF (columns d) (delete j (rows d))))
  ∧ cells (fill_row r1) ∈ cells <$> rows (clean d)
  ∧ ((∀ k r, k < j → rows d !! k = Some r → cells r ≠ cells r2) →
     duplicated (rows d) !! j = Some false).
Proof.
  intros Hlt Hi Hj Hdiff.
  pose proof (differ_only_by_missing_zero_fill _ _ Hdiff) as Heq.
  assert ((fill_row <$> rows d) !! i = Some (fill_row r1)) as Hi'
    by (by rewrite list_lookup_fmap, Hi).
  assert ((fill_row <$> rows d) !! j = Some (fill_row r2)) as Hj'
    by (by rewrite list_lookup_fmap, Hj).
  assert (duplicated (rows (fillna d)) !! j = Some true) as Hmask.
  { simpl. unfold duplicated. rewrite (duplicated_from_lookup _ _ _ _ Hj').
    f_equal. apply bool_decide_eq_true_2. right. rewrite <- Heq.
    apply list_elem_of_fmap_2, elem_of_take. eauto. }
  split; [done|]. split; [done|]. split; [|split].
  - rewrite !clean_rows. simpl. rewrite list_fmap_delete.
    by apply (drop_duplicated_delete _ _ _ (fill_row r2)).
  - rewrite clean_rows.
    destruct (drop_duplicated_complete [] (fill_row <$> rows d) (fill_row r1))
      as [Hs|Hs]; [by eapply list_elem_of_lookup_2| |done].
    by apply elem_of_nil in Hs.
  - intros Hfresh. unfold duplicated.
    rewrite (duplicated_from_lookup _ _ _ _ Hj). f_equal.
    apply bool_decide_eq_false_2. intros [Hs|Hs].
    + by apply elem_of_nil in Hs.
    + apply list_elem_of_fmap in Hs as (r & Hr & Hin).
      apply elem_of_take in Hin as (k & Hk & Hkj).
      by apply (Hfresh k r).
Qed.

(** The price cell is missing in the first row and zero in the second:
    the second row is removed although the raw rows are different. *)
Lemma fill_before_dedup_merges_witness :
  (cells (fill_row (Row 0 [NaN; num 5]))
   = cells (fill_row (Row 1 [num 0; num 5]))
   ∧ duplicated (rows (fillna gap_vs_zero)) !! 1 = Some true
   ∧ rows (clean gap_vs_zero)
     = rows (clean (DF (columns gap_vs_zero) (delete 1 (rows gap_vs_zero))))
   ∧ cells (fill_row (Row 0 [NaN; num 5])) ∈ cells <$> rows (clean gap_vs_zero)
   ∧ duplicated (rows gap_vs_zero) !! 1 = Some false)
  ∧ rows (clean gap_vs_zero) = [Row 0 [num 0; num 5]]
  ∧ rows (drop_duplicates gap_vs_zero) = rows gap_vs_zero.
Proof.
  split; [|split; reflexivity].
  destruct (fill_before_dedup_merges gap_vs_zero 0 1
              (Row 0 [NaN; num 5]) (Row 1 [num 0; num 5]))
    as (H1 & H2 & H3 & H4 & H5).
  - lia.
  - reflexivity.
  - reflexivity.
  - constructor; [right; left; split; reflexivity|].
    constructor; [left; reflexivity|]. constructor.
  - split; [exact H1|]. split; [exact H2|]. split; [exact H3|].
    split; [exact H4|]. apply H5.
    intros k r Hk Hr. destruct k as [|k]; [|lia].
    injection Hr as <-. discriminate.
Defined.

(** C9 as worded fails: the rows below differ only in which cells are
    missing (the price is missing in the first and present in the second,
    the scores agree), yet they are not identical after the zero fill and
    both survive the cleaning step. *)
Lemma differ_only_in_missing_both_survive :
  differ_only_in_missing (Row 0 [NaN; num 5]) (Row 1 [num 3; num 5])
  ∧ cells (fill_row (Row 0 [NaN; num 5]))
    ≠ cells (fill_row (Row 1 [num 3; num 5]))
  ∧ rows (clean gap_vs_three) = [Row 0 [num 0; num 5]; Row 1 [num 3; num 5]]
  ∧ ¬ (∀ r1 r2 cols, differ_only_in_missing r1 r2 →
         rows (clean (DF cols [r1; r2])) = [fill_row r1]).
Proof.
  assert (differ_only_in_missing (Row 0 [NaN; num 5]) (Row 1 [num 3; num 5]))
    as Hdiff.
  { constructor; [by right|]. constructor; [by left|]. constructor. }
  split; [done|]. split; [|split].
  - intros H. injection H as H. revert H. simpl. by vm_compute.
  - reflexivity.
  - intros Hall. specialize (Hall _ _ two_columns Hdiff).
    vm_compute in Hall. discriminate Hall.
Qed.

End FillBeforeDedup.

(** ** Loading *)

(** Unfolding of the monad operations down to state transformers. *)
Ltac unfold_M :=
  unfold run, load_data, print_text_stats, plot_all_charts, pd_read_csv,
    try_except, warn, log, print, emit, lift, raise, get_filename, set_df,
    self_df, subplots, show, mbind, mret, M_bind, M_ret;
  simpl.

Section LoadTheorems.

Variable read_csv : string → result DataFrame.

Implicit Types (s : state) (raw : DataFrame) (e : exn).

Lemma load_data_ok s raw :
  read_csv (filename s) = Return raw →
  load_data read_csv s = (Return true, loaded s raw).
Proof.
  intros Hread. unfold loaded. unfold_M.
  rewrite Hread. simpl. by rewrite <- !app_assoc.
Qed.

Lemma load_data_not_found s m :
  read_csv (filename s) = Raise (FileNotFoundError m) →
  load_data read_csv s
  = (Return false,
     State (filename s) (df s) (fig s)
           (trace s ++ [EvRead (filename s);
                        EvLog ERROR ("Файл " ++ filename s ++ " не найден.")])).
Proof.
  intros Hread. unfold_M.
  rewrite Hread. simpl. by rewrite <- !app_assoc.
Qed.

Lemma load_data_other_error s e :
  read_csv (filename s) = Raise e →
  (∀ m, e ≠ FileNotFoundError m) →
  load_data read_csv s
  = (Return false,
     State (filename s) (df s) (fig s)
           (trace s ++ [EvRead (filename s);
                        EvLog ERROR ("Ошибка загрузки данных: " ++ exn_str e)])).
Proof.
  intros Hread Hne. unfold_M.
  rewrite Hread. simpl.
  destruct e; [by destruct (Hne m)|..]; simpl; by rewrite <- !app_assoc.
Qed.

(** C5: [load_data] always returns a flag and never raises.  A file that is
    absent is reported as not found and the flag is false; any other error
    of the reader is reported with its message and the flag is false;
    otherwise the flag is true.  The file is read once, whatever the
    outcome: there is no retry. *)
Theorem load_data_contract s :
  (∃ ok, (load_data read_csv s).1 = Return ok)
  ∧ match read_csv (filename s) with
    | Return raw =>
        load_data read_csv s = (Return true, loaded s raw)
    | Raise (FileNotFoundError m) =>
        load_data read_csv s
        = (Return false,
           State (filename s) (df s) (fig s)
             (trace s ++
                [EvRead (filename s);
                 EvLog ERROR ("Файл " ++ filename s ++ " не найден.")]))
    | Raise e =>
        load_data read_csv s
        = (Return false,
           State (filename s) (df s) (fig s)
             (trace s ++
                [EvRead (filename s);
                 EvLog ERROR ("Ошибка загрузки данных: " ++ exn_str e)]))
    end
  ∧ length (filter (λ ev, is_read ev = true) (emitted (load_data read_csv) s))
    = 1.
Proof.
  assert (∀ tr evs : list event, drop (length tr) (tr ++ evs) = evs) as Hdrop.
  { intros tr evs. by rewrite drop_app_length. }
  destruct (read_csv (filename s)) as [raw|e] eqn:Hread.
  - rewrite (load_data_ok _ _ Hread). unfold emitted.
    rewrite (load_data_ok _ _ Hread). simpl. rewrite Hdrop. eauto.
  - destruct e;
      try (unfold emitted; rewrite (load_data_other_error _ _ Hread);
           [simpl; rewrite Hdrop; eauto | congruence]).
    unfold emitted. rewrite (load_data_not_found _ _ Hread).
    simpl. rewrite Hdrop. eauto.
Qed.

(** C2: when the file exists and parses, [load_data] succeeds and the table
    it stores has no missing cell, every row of it is a row of the file with
    its missing cells replaced by zero and its other cells unchanged, and no
    two of its rows have the same cells. *)
Theorem load_data_cleans s raw :
  read_csv (filename s) = Return raw →
  ∃ d, load_data read_csv s = (Return true, loaded s raw)
    ∧ df (load_data read_csv s).2 = Some d
    ∧ (∀ r c, r ∈ rows d → c ∈ cells r → isna c = false)
    ∧ (∀ r, r ∈ rows d →
         ∃ r0, r0 ∈ rows raw ∧ label r = label r0
           ∧ length (cells r) = length (cells r0)
           ∧ ∀ i c0, cells r0 !! i = Some c0 →
               cells r !! i = Some (if isna c0 then zero else c0))
    ∧ NoDup (cells <$> rows d)
    ∧ NoDup (rows d).
Proof.
  intros Hread. exists (clean raw). rewrite (load_data_ok _ _ Hread).
  split; [done|]. split; [done|].
  assert (∀ r, r ∈ rows (clean raw) → ∃ r0, r0 ∈ rows raw ∧ r = fill_row r0)
    as Hfrom.
  { intros r Hr. rewrite clean_rows in Hr.
    eapply elem_of_sublist in Hr; [|apply drop_duplicated_sublist].
    apply list_elem_of_fmap in Hr as (r0 & -> & Hr0). eauto. }
  assert (NoDup (cells <$> rows (clean raw))) as Hnd
    by (rewrite clean_rows; apply drop_duplicated_NoDup).
  split; [|split; [|split]].
  - intros r c (r0 & _ & ->)%Hfrom. simpl.
    intros (c0 & -> & _)%list_elem_of_fmap. apply fill_cell_notna.
  - intros r (r0 & Hr0 & ->)%Hfrom. exists r0. simpl.
    split; [done|]. split; [done|]. split; [by rewrite length_map|].
    intros i c0 Hc0. change (map fill_cell) with (fmap (M:=list) fill_cell).
    by rewrite list_lookup_fmap, Hc0.
  - done.
  - by apply NoDup_fmap_1 in Hnd.
Qed.

(** C10: when the reader raises, because the file is absent or for any
    other reason, [load_data] returns false and leaves the [df] field as it
    was; on a new analyzer that is [None]. *)
Theorem load_data_failure_keeps_df s e :
  read_csv (filename s) = Raise e →
  (load_data read_csv s).1 = Return false
  ∧ df (load_data read_csv s).2 = df s
  ∧ (∀ path, s = init path → df (load_data read_csv s).2 = None).
Proof.
  intros Hread.
  assert ((load_data read_csv s).1 = Return false
          ∧ df (load_data read_csv s).2 = df s) as [Hflag Hdf].
  { destruct e;
      try (rewrite (load_data_other_error _ _ Hread); [done|congruence]).
    by rewrite (load_data_not_found _ _ Hread). }
  split; [done|]. split; [done|]. intros path ->. by rewrite Hdf.
Qed.

End LoadTheorems.

Lemma load_data_cleans_witness :
  ∃ d, load_data one_file (init PATH) = (Return true, loaded (init PATH) trends)
    ∧ df (load_data one_file (init PATH)).2 = Some d
    ∧ (∀ r c, r ∈ rows d → c ∈ cells r → isna c = false)
    ∧ (∀ r, r ∈ rows d →
         ∃ r0, r0 ∈ rows trends ∧ label r = label r0
           ∧ length (cells r) = length (cells r0)
           ∧ ∀ i c0, cells r0 !! i = Some c0 →
               cells r !! i = Some (if isna c0 then zero else c0))
    ∧ NoDup (cells <$> rows d)
    ∧ NoDup (rows d).
Proof. apply (load_data_cleans one_file (init PATH) trends). reflexivity. Defined.

Lemma load_data_failure_keeps_df_witness :
  (load_data bad_file (init PATH)).1 = Return false
  ∧ df (load_data bad_file (init PATH)).2 = df (init PATH)
  ∧ df (load_data bad_file (init PATH)).2 = None.
Proof.
  destruct (load_data_failure_keeps_df bad_file (init PATH)
              (OtherError "No columns to parse from file") eq_refl)
    as (H1 & H2 & H3).
  split; [exact H1|]. split; [exact H2|]. exact (H3 PATH eq_refl).
Defined.

(** ** The report *)

Arguments plot_colors : simpl never.
Arguments plot_prices : simpl never.
Arguments plot_popularity : simpl never.
Arguments plot_ratings : simpl never.
Arguments popularity_by_category : simpl never.
Arguments panel_axes : simpl never.
Arguments panel_log : simpl never.

Section ReportFacts.

Implicit Types (s : state) (d : DataFrame).

(** The three outcomes of [print_text_stats] on a loaded table. *)
Lemma print_text_stats_loaded s d :
  df s = Some d →
  print_text_stats s
  = if has_column "Popularity_Score" d then
      match popularity_by_category d with
      | Return ranking =>
          (Return (),
           State (filename s) (df s) (fig s)
             (trace s ++ report_header d ++ ranking_header
                ++ [EvPrint (Series ranking)]))
      | Raise e =>
          (Raise e,
           State (filename s) (df s) (fig s)
             (trace s ++ report_header d ++ ranking_header))
      end
    else
      (Return (),
       State (filename s) (df s) (fig s) (trace s ++ report_header d)).
Proof.
  intros Hdf. unfold_M. rewrite Hdf. simpl.
  destruct (has_column "Popularity_Score" d); simpl.
  - destruct (popularity_by_category d); simpl;
      rewrite <- !app_assoc; simpl; by rewrite ?Hdf.
  - rewrite <- !app_assoc. simpl. by rewrite ?Hdf.
Qed.

(** The report only prints: it adds print events, at least the banner, and
    changes nothing else. *)
Lemma print_text_stats_frame s :
  ∃ rep,
    (print_text_stats s).2
    = State (filename s) (df s) (fig s) (trace s ++ rep)
    ∧ Forall (λ ev, is_print ev = true) rep ∧ rep ≠ [].
Proof.
  destruct (df s) as [d|] eqn:Hdf.
  - rewrite (print_text_stats_loaded _ _ Hdf).
    destruct (has_column "Popularity_Score" d);
      [destruct (popularity_by_category d)|];
      simpl; rewrite Hdf;
      eexists; (split; [reflexivity|]); split;
      try (repeat constructor); done.
  - unfold_M. rewrite Hdf. simpl. rewrite <- !app_assoc. simpl.
    eexists. split; [by rewrite ?Hdf|]. split; [repeat constructor|done].
Qed.

End ReportFacts.

(** ** The charts *)

Section ChartFacts.

Implicit Types (s : state) (d : DataFrame) (p : pos).

Ltac unfold_panel :=
  unfold alone, plot_colors, plot_prices, plot_popularity, plot_ratings;
  unfold_M;
  unfold draw, set_title, set_xlabel, set_ylabel, update_ax; simpl.

Lemma plot_colors_isolated : isolated P00 plot_colors.
Proof.
  exists (alone P00 plot_colors). split.
  - intros [d|] a; unfold_panel; [|done].
    destruct (column "Color" d); simpl; [|done]. by intros [= <-].
  - intros s. unfold_panel.
    destruct (df s) as [d|] eqn:Hdf; simpl; [|done].
    destruct (column "Color" d); simpl; by rewrite ?Hdf.
Qed.

Lemma plot_prices_isolated : isolated P01 plot_prices.
Proof.
  exists (alone P01 plot_prices). split.
  - intros [d|] a; unfold_panel; [|done].
    destruct (groupby "Brand" "Price(USD)" d) as [gs|]; simpl; [|done].
    destruct (aggregate mean "mean" gs); simpl; [|done]. by intros [= <-].
  - intros s. unfold_panel.
    destruct (df s) as [d|] eqn:Hdf; simpl; [|done].
    destruct (groupby "Brand" "Price(USD)" d) as [gs|]; simpl; [|done].
    destruct (aggregate mean "mean" gs); simpl; by rewrite ?Hdf.
Qed.

Lemma plot_popularity_isolated : isolated P10 plot_popularity.
Proof.
  exists (alone P10 plot_popularity). split.
  - intros [d|] a; unfold_panel; [|done].
    destruct (variable "Style" d) as [x|]; simpl; [|done].
    destruct (variable "Popularity_Score" d) as [y|]; simpl; [|done].
    destruct (samples_by_category (zip x y)); simpl; [|done].
    by intros [= <-].
  - intros s. unfold_panel.
    destruct (df s) as [d|] eqn:Hdf; simpl; [|done].
    destruct (variable "Style" d) as [x|]; simpl; [|done].
    destruct (variable "Popularity_Score" d) as [y|]; simpl; [|done].
    destruct (samples_by_category (zip x y)); simpl; by rewrite ?Hdf.
Qed.

Lemma plot_ratings_isolated : isolated P11 plot_ratings.
Proof.
  exists (alone P11 plot_ratings). split.
  - intros [d|] a; unfold_panel; [|done].
    destruct (variable "Season" d) as [x|]; simpl; [|done].
    destruct (variable "Customer_Rating" d) as [y|]; simpl; [|done].
    destruct (aggregate mean "mean" (groups (zip x y))); simpl; [|done].
    by intros [= <-].
  - intros s. unfold_panel.
    destruct (df s) as [d|] eqn:Hdf; simpl; [|done].
    destruct (variable "Season" d) as [x|]; simpl; [|done].
    destruct (variable "Customer_Rating" d) as [y|]; simpl; [|done].
    destruct (aggregate mean "mean" (groups (zip x y))); simpl;
      by rewrite ?Hdf.
Qed.

Lemma panel_isolated p : isolated p (panel p).
Proof.
  destruct p; [apply plot_colors_isolated | apply plot_prices_isolated
              | apply plot_popularity_isolated | apply plot_ratings_isolated].
Qed.

Lemma col_index_None name cols :
  name ∉ cols → col_index name cols = None.
Proof.
  induction cols as [|c cols IH]; [done|].
  rewrite not_elem_of_cons. intros [Hne Hnot]. simpl.
  rewrite decide_False by congruence. by rewrite IH.
Qed.

Lemma col_index_Some name cols :
  name ∈ cols → ∃ i, col_index name cols = Some i.
Proof.
  induction cols as [|c cols IH]; [by intros ?%elem_of_nil|].
  simpl. case_decide; [by eauto|].
  rewrite elem_of_cons. intros [?|Hin]; [congruence|].
  destruct (IH Hin) as [i ->]. by eauto.
Qed.

Lemma column_absent name d :
  has_column name d = false → column name d = Raise (KeyError name).
Proof.
  unfold has_column, column. intros Hno%bool_decide_eq_false_1.
  by rewrite col_index_None.
Qed.

(** One guarded block: the figure changes at [p] when the block returns,
    a warning is logged when it raises, and control goes on. *)
Lemma guarded_block p body what f s :
  (∀ s, body s = match f (df s) with
                 | Return a =>
                     (Return (),
                      State (filename s) (df s) (set_ax p a (fig s)) (trace s))
                 | Raise e => (Raise e, s)
                 end) →
  try_except body (warn what) s
  = (Return (),
     State (filename s) (df s)
       (match f (df s) with
        | Return a => set_ax p a (fig s)
        | Raise _ => fig s
        end)
       (trace s ++ match f (df s) with
                   | Return _ => []
                   | Raise e => [EvLog WARNING (what ++ exn_str e)]
                   end)).
Proof.
  intros Hbody. unfold try_except. rewrite Hbody.
  destruct (f (df s)); [by rewrite app_nil_r|done].
Qed.

Lemma panel_axes_alone p f s :
  (∀ s, panel p s = match f (df s) with
                    | Return a =>
                        (Return (),
                         State (filename s) (df s) (set_ax p a (fig s))
                               (trace s))
                    | Raise e => (Raise e, s)
                    end) →
  panel_axes p s = match f (df s) with Return a => a | Raise _ => blank end
  ∧ panel_log p s
    = match f (df s) with
      | Return _ => []
      | Raise e => [EvLog WARNING (panel_warning p ++ exn_str e)]
      end.
Proof.
  intros Hbody. unfold panel_axes, panel_log. rewrite Hbody.
  destruct (f (df s)); [|done]. by destruct p.
Qed.

(** The whole of [plot_all_charts] in one equation. *)
Lemma plot_all_charts_run s :
  let s0 := (subplots figure_title s).2 in
  let shown :=
    Figure figure_title (panel_axes P00 s0) (panel_axes P01 s0)
           (panel_axes P10 s0) (panel_axes P11 s0) in
  plot_all_charts s
  = (Return (),
     State (filename s) (df s) shown
       (trace s ++ [EvSubplots] ++ panel_log P00 s0 ++ panel_log P01 s0
          ++ panel_log P10 s0 ++ panel_log P11 s0 ++ [EvShow shown])).
Proof.
  intros s0 shown. subst shown.
  destruct (panel_isolated P00) as (f0 & _ & H0).
  destruct (panel_isolated P01) as (f1 & _ & H1).
  destruct (panel_isolated P10) as (f2 & _ & H2).
  destruct (panel_isolated P11) as (f3 & _ & H3).
  assert (df s0 = df s) as Hdf0 by done.
  destruct (panel_axes_alone P00 f0 s0 H0) as [Ha0 Hl0].
  destruct (panel_axes_alone P01 f1 s0 H1) as [Ha1 Hl1].
  destruct (panel_axes_alone P10 f2 s0 H2) as [Ha2 Hl2].
  destruct (panel_axes_alone P11 f3 s0 H3) as [Ha3 Hl3].
  rewrite Hdf0 in Ha0, Ha1, Ha2, Ha3, Hl0, Hl1, Hl2, Hl3.
  rewrite Ha0, Ha1, Ha2, Ha3, Hl0, Hl1, Hl2, Hl3.
  unfold plot_all_charts, mbind, M_bind.
  unfold subplots at 1. simpl in H0, H1, H2, H3.
  rewrite (guarded_block P00 _ _ f0 _ H0).
  rewrite (guarded_block P01 _ _ f1 _ H1).
  rewrite (guarded_block P10 _ _ f2 _ H2).
  rewrite (guarded_block P11 _ _ f3 _ H3).
  unfold show. simpl.
  destruct (f0 (df s)), (f1 (df s)), (f2 (df s)), (f3 (df s)); simpl;
    rewrite <- ?app_assoc; reflexivity.
Qed.

(** A block on its own either raises, leaving a blank panel and one
    warning, or returns, having drawn, without a warning. *)
Lemma panel_outcome p s :
  (∃ e, (panel p s).1 = Raise e ∧ panel_axes p s = blank
        ∧ panel_log p s = [EvLog WARNING (panel_warning p ++ exn_str e)])
  ∨ ((panel p s).1 = Return () ∧ is_Some (plot (panel_axes p s))
     ∧ panel_log p s = []).
Proof.
  destruct (panel_isolated p) as (f & Hd & Hf).
  destruct (panel_axes_alone p f s Hf) as [Ha Hl].
  rewrite Ha, Hl, Hf. destruct (f (df s)) as [a|e] eqn:Hfo.
  - right. split; [done|]. split; [by eapply Hd|done].
  - left. by exists e.
Qed.

Lemma panel_log_warnings p s :
  Forall (λ ev, is_warning ev = true) (panel_log p s).
Proof.
  destruct (panel_outcome p s) as [(e & _ & _ & ->)|(_ & _ & ->)];
    by repeat constructor.
Qed.

(** C8: the four panels are guarded one by one.  On a loaded table
    [plot_all_charts] never raises and always shows the figure; what ends up
    at each position is what the block of that position draws when run on
    its own on the empty figure, so no block depends on another; a block
    that raises leaves its position blank and logs one warning, a block that
    returns has drawn its panel and logs nothing.  Without a [Color] column
    the first block raises: its panel is blank and the warning names the
    column. *)
Theorem plot_all_charts_isolated s d :
  df s = Some d →
  let s0 := (subplots figure_title s).2 in
  let s' := (plot_all_charts s).2 in
  (plot_all_charts s).1 = Return ()
  ∧ df s' = df s
  ∧ suptitle (fig s') = figure_title
  ∧ (∀ p, ax p (fig s') = panel_axes p s0)
  ∧ trace s'
    = trace s ++ [EvSubplots] ++ panel_log P00 s0 ++ panel_log P01 s0
        ++ panel_log P10 s0 ++ panel_log P11 s0 ++ [EvShow (fig s')]
  ∧ (∀ p,
       (∃ e, (panel p s0).1 = Raise e ∧ panel_axes p s0 = blank
             ∧ panel_log p s0
               = [EvLog WARNING (panel_warning p ++ exn_str e)])
       ∨ ((panel p s0).1 = Return () ∧ is_Some (plot (panel_axes p s0))
          ∧ panel_log p s0 = []))
  ∧ (has_column "Color" d = false →
     panel_axes P00 s0 = blank
     ∧ panel_log P00 s0
       = [EvLog WARNING "Не удалось построить график цветов: 'Color'"]).
Proof.
  intros Hdf s0 s'. subst s'. rewrite (plot_all_charts_run s). simpl.
  split; [done|]. split; [done|]. split; [done|].
  split; [by intros []|]. split; [done|]. split.
  - intros p. apply panel_outcome.
  - intros Hno. unfold panel_axes, panel_log. simpl.
    unfold plot_colors. unfold_M. rewrite Hdf. simpl.
    by rewrite (column_absent _ _ Hno).
Qed.

Lemma plot_all_charts_isolated_witness :
  let s := loaded (init PATH) no_color in
  let s0 := (subplots figure_title s).2 in
  let s' := (plot_all_charts s).2 in
  ((plot_all_charts s).1 = Return ()
   ∧ df s' = df s
   ∧ suptitle (fig s') = figure_title
   ∧ (∀ p, ax p (fig s') = panel_axes p s0)
   ∧ trace s'
     = trace s ++ [EvSubplots] ++ panel_log P00 s0 ++ panel_log P01 s0
         ++ panel_log P10 s0 ++ panel_log P11 s0 ++ [EvShow (fig s')]
   ∧ (∀ p,
        (∃ e, (panel p s0).1 = Raise e ∧ panel_axes p s0 = blank
              ∧ panel_log p s0
                = [EvLog WARNING (panel_warning p ++ exn_str e)])
        ∨ ((panel p s0).1 = Return () ∧ is_Some (plot (panel_axes p s0))
           ∧ panel_log p s0 = []))
   ∧ panel_axes P00 s0 = blank
   ∧ panel_log P00 s0
     = [EvLog WARNING "Не удалось построить график цветов: 'Color'"])
  ∧ (panel P01 s0).1 = Return ()
  ∧ (panel P10 s0).1 = Return ()
  ∧ (panel P11 s0).1 = Return ().
Proof.
  split; [|by vm_compute].
  destruct (plot_all_charts_isolated (loaded (init PATH) no_color)
              (clean no_color) eq_refl)
    as (H1 & H2 & H3 & H4 & H5 & H6 & H7).
  destruct (H7 eq_refl) as [H8 H9].
  exact (conj H1 (conj H2 (conj H3 (conj H4 (conj H5 (conj H6
           (conj H8 H9))))))).
Defined.

End ChartFacts.

(** ** The orchestrator *)

Section RunTheorems.

Variable read_csv : string → result DataFrame.

Implicit Types (s : state) (raw : DataFrame) (e : exn).

Lemma emitted_app {A} (m : M A) s evs :
  trace (m s).2 = trace s ++ evs → emitted m s = evs.
Proof. unfold emitted. intros ->. by rewrite drop_app_length. Qed.

Lemma prints_are_not_charts rep :
  Forall (λ ev, is_print ev = true) rep →
  existsb is_chart rep = false ∧ existsb is_completion rep = false.
Proof.
  induction 1 as [|ev rep Hev _ [IH1 IH2]]; [done|].
  simpl. rewrite IH1, IH2. by destruct ev.
Qed.

Lemma load_data_failed s e :
  read_csv (filename s) = Raise e →
  load_data read_csv s
  = (Return false,
     State (filename s) (df s) (fig s)
       (trace s ++ [EvRead (filename s);
                    EvLog ERROR (load_error (filename s) e)])).
Proof.
  intros Hread. destruct e;
    try (by rewrite (load_data_other_error _ _ _ Hread)).
  by rewrite (load_data_not_found _ _ _ Hread).
Qed.

Lemma run_load_failed s e :
  read_csv (filename s) = Raise e →
  run read_csv s
  = (Return (),
     State (filename s) (df s) (fig s)
       (trace s ++ [EvRead (filename s);
                    EvLog ERROR (load_error (filename s) e);
                    EvLog ERROR aborted])).
Proof.
  intros Hread. unfold run, mbind, M_bind.
  rewrite (load_data_failed _ _ Hread). unfold_M. by rewrite <- app_assoc.
Qed.

Lemma run_loaded s raw :
  read_csv (filename s) = Return raw →
  run read_csv s
  = (print_text_stats ;; plot_all_charts ;; log INFO completion)
      (loaded s raw).
Proof.
  intros Hread. unfold run, mbind at 1, M_bind at 1.
  by rewrite (load_data_ok _ _ _ Hread).
Qed.

(** After the report has returned, the charts and the closing line. *)
Lemma run_after_report s raw s1 :
  read_csv (filename s) = Return raw →
  print_text_stats (loaded s raw) = (Return (), s1) →
  ∃ warnings shown,
    (run read_csv s).1 = Return ()
    ∧ trace (run read_csv s).2
      = trace s1 ++ [EvSubplots] ++ warnings ++ [EvShow shown]
          ++ [EvLog INFO completion]
    ∧ Forall (λ ev, is_warning ev = true) warnings.
Proof.
  intros Hread Hrep. rewrite (run_loaded _ _ Hread).
  unfold mbind, M_bind. rewrite Hrep, (plot_all_charts_run s1).
  set (s0 := (subplots figure_title s1).2).
  exists (panel_log P00 s0 ++ panel_log P01 s0 ++ panel_log P10 s0
            ++ panel_log P11 s0),
         (Figure figure_title (panel_axes P00 s0) (panel_axes P01 s0)
                 (panel_axes P10 s0) (panel_axes P11 s0)).
  split; [done|]. split.
  - unfold log, emit. cbn [snd trace]. by rewrite <- !app_assoc.
  - repeat apply Forall_app_2; apply panel_log_warnings.
Qed.

(** C1, as the code has it: when [load_data] fails, [run] logs the error of
    the loader and its own closing error and does nothing else: no report,
    no chart.  When [load_data] succeeds the report runs first, and if it
    returns, the charts and then the completion line follow, in that
    order. *)
Theorem run_sequence s :
  match read_csv (filename s) with
  | Raise e =>
      (load_data read_csv s).1 = Return false
      ∧ run read_csv s
        = (Return (),
           State (filename s) (df s) (fig s)
             (trace s ++ [EvRead (filename s);
                          EvLog ERROR (load_error (filename s) e);
                          EvLog ERROR aborted]))
      ∧ reporter_ran (emitted (run read_csv) s) = false
      ∧ visualizer_ran (emitted (run read_csv) s) = false
  | Return raw =>
      (load_data read_csv s).1 = Return true
      ∧ ((print_text_stats (loaded s raw)).1 = Return () →
         ∃ report warnings shown,
           (run read_csv s).1 = Return ()
           ∧ emitted (run read_csv) s
             = [EvRead (filename s); EvLog INFO "Данные загружены и очищены."]
                 ++ report ++ [EvSubplots] ++ warnings ++ [EvShow shown]
                 ++ [EvLog INFO completion]
           ∧ report ≠ []
           ∧ Forall (λ ev, is_print ev = true) report
           ∧ Forall (λ ev, is_warning ev = true) warnings)
  end.
Proof.
  destruct (read_csv (filename s)) as [raw|e] eqn:Hread.
  - split; [by rewrite (load_data_ok _ _ _ Hread)|]. intros Hret.
    destruct (print_text_stats_frame (loaded s raw)) as (rep & Hs1 & Hrep & Hne).
    destruct (print_text_stats (loaded s raw)) as [r s1] eqn:Hrun.
    simpl in Hret, Hs1. subst r.
    destruct (run_after_report _ _ _ Hread Hrun) as (ws & shown & Hr & Htr & Hws).
    exists rep, ws, shown. split; [done|]. split; [|done].
    apply emitted_app. rewrite Htr, Hs1. simpl.
    by rewrite <- !app_assoc.
  - split; [by rewrite (load_data_failed _ _ Hread)|].
    split; [by apply run_load_failed|].
    rewrite (emitted_app (run read_csv) s
               [EvRead (filename s); EvLog ERROR (load_error (filename s) e);
                EvLog ERROR aborted]); [done|].
    by rewrite (run_load_failed _ _ Hread).
Qed.

(** C7, as the code has it: [run] has no guard around the report.  When the
    load succeeded and [print_text_stats] raises, [run] raises the same
    exception and stops where the report stopped: no chart is drawn and the
    completion line is not logged. *)
Theorem report_error_aborts_run s raw e :
  read_csv (filename s) = Return raw →
  (print_text_stats (loaded s raw)).1 = Raise e →
  (load_data read_csv s).1 = Return true
  ∧ (run read_csv s).1 = Raise e
  ∧ (run read_csv s).2 = (print_text_stats (loaded s raw)).2
  ∧ visualizer_ran (emitted (run read_csv) s) = false
  ∧ run_completed (emitted (run read_csv) s) = false.
Proof.
  intros Hread Hraise.
  destruct (print_text_stats_frame (loaded s raw)) as (rep & Hs1 & Hrep & _).
  assert (run read_csv s = print_text_stats (loaded s raw)) as Hrun.
  { rewrite (run_loaded _ _ Hread). unfold mbind, M_bind.
    destruct (print_text_stats (loaded s raw)) as [r s1]. simpl in Hraise.
    by subst r. }
  split; [by rewrite (load_data_ok _ _ _ Hread)|].
  rewrite Hrun. split; [done|]. split; [done|].
  rewrite (emitted_app (run read_csv) s
             ([EvRead (filename s); EvLog INFO "Данные загружены и очищены."]
                ++ rep)).
  - unfold visualizer_ran, run_completed. simpl.
    by destruct (prints_are_not_charts rep Hrep) as [-> ->].
  - rewrite Hrun, Hs1. simpl. by rewrite <- app_assoc.
Qed.

End RunTheorems.

Lemma run_sequence_witness :
  (load_data one_file (init PATH)).1 = Return true
  ∧ ∃ report warnings shown,
      (run one_file (init PATH)).1 = Return ()
      ∧ emitted (run one_file) (init PATH)
        = [EvRead (filename (init PATH));
           EvLog INFO "Данные загружены и очищены."]
            ++ report ++ [EvSubplots] ++ warnings ++ [EvShow shown]
            ++ [EvLog INFO completion]
      ∧ report ≠ []
      ∧ Forall (λ ev, is_print ev = true) report
      ∧ Forall (λ ev, is_warning ev = true) warnings.
Proof.
  pose proof (run_sequence one_file (init PATH)) as H.
  change (one_file (filename (init PATH))) with (Return trends) in H.
  destruct H as [H1 H2]. split; [exact H1|]. apply H2. by vm_compute.
Defined.

(** The file of [scores_only] loads, the report stops at the grouping by
    the absent [Category] column, and [run] ends there. *)
Lemma report_error_aborts_run_witness :
  (load_data (always scores_only) (init PATH)).1 = Return true
  ∧ (run (always scores_only) (init PATH)).1 = Raise (KeyError "Category")
  ∧ (run (always scores_only) (init PATH)).2
    = (print_text_stats (loaded (init PATH) scores_only)).2
  ∧ visualizer_ran (emitted (run (always scores_only)) (init PATH)) = false
  ∧ run_completed (emitted (run (always scores_only)) (init PATH)) = false.
Proof.
  apply (report_error_aborts_run (always scores_only) (init PATH) scores_only).
  - reflexivity.
  - by vm_compute.
Defined.

(** C1 as worded fails: the file of [brands_and_scores] loads, the report
    starts and raises at the grouping by the absent [Category] column, and
    neither the charts nor the completion line follow. *)
Lemma run_stops_in_report :
  (load_data (always brands_and_scores) (init PATH)).1 = Return true
  ∧ (run (always brands_and_scores) (init PATH)).1
    = Raise (KeyError "Category")
  ∧ reporter_ran (trace (run (always brands_and_scores) (init PATH)).2) = true
  ∧ visualizer_ran (trace (run (always brands_and_scores) (init PATH)).2)
    = false
  ∧ run_completed (trace (run (always brands_and_scores) (init PATH)).2)
    = false.
Proof. by vm_compute. Qed.

(** C7 as worded fails: the file of [colors_and_scores] loads and
    [print_text_stats] raises, yet [plot_all_charts] does not run: the trace
    of [run] has no figure event, although the [Color] chart could have been
    drawn. *)
Lemma charts_skipped_after_report_error :
  (load_data (always colors_and_scores) (init PATH)).1 = Return true
  ∧ (print_text_stats (loaded (init PATH) colors_and_scores)).1
    = Raise (KeyError "Category")
  ∧ visualizer_ran (trace (run (always colors_and_scores) (init PATH)).2)
    = false
  ∧ visualizer_ran
      (trace (plot_all_charts (loaded (init PATH) colors_and_scores)).2)
    = true.
Proof. by vm_compute. Qed.

(** ** The ranking of categories by median popularity *)

Section RankingFacts.

Implicit Types (l : list cell) (kvs : list (cell * cell)) (d : DataFrame).

Lemma unique_from_spec seen l :
  NoDup (unique_from seen l)
  ∧ ∀ x, x ∈ unique_from seen l ↔ x ∈ l ∧ x ∉ seen.
Proof.
  revert seen. induction l as [|c l IH]; intros seen; simpl.
  - split; [constructor|]. intros x. rewrite elem_of_nil. tauto.
  - destruct (IH seen) as [Hnd Hin], (IH (c :: seen)) as [Hnd' Hin'].
    case_decide as Hc.
    + split; [done|]. intros x. rewrite Hin, elem_of_cons.
      split; [tauto|]. intros [[->|?] ?]; tauto.
    + split.
      * apply NoDup_cons. split; [|done]. rewrite Hin', elem_of_cons. tauto.
      * intros x. rewrite !elem_of_cons, Hin', not_elem_of_cons.
        destruct (decide (x = c)) as [->|]; tauto.
Qed.

Lemma unique_spec l :
  NoDup (unique l) ∧ ∀ x, x ∈ unique l ↔ x ∈ l.
Proof.
  destruct (unique_from_spec [] l) as [Hnd Hin]. split; [done|].
  intros x. rewrite Hin, elem_of_nil. tauto.
Qed.

Lemma group_keys_spec l :
  NoDup (group_keys l) ∧ ∀ k, k ∈ group_keys l ↔ k ≠ NaN ∧ k ∈ l.
Proof.
  unfold group_keys.
  destruct (unique_spec (filter (λ c, notna c = true) l)) as [Hnd Hin].
  split.
  - by rewrite merge_sort_Permutation.
  - intros k. rewrite merge_sort_Permutation, Hin, list_elem_of_filter.
    destruct k; simpl; split; intros [? ?]; split; done.
Qed.

Lemma groups_keys kvs : (groups kvs).*1 = group_keys (kvs.*1).
Proof.
  unfold groups. rewrite <- list_fmap_compose.
  rewrite <- (list_fmap_id (group_keys _)) at 2. by apply list_fmap_ext.
Qed.

Lemma elem_of_groups kvs k vs :
  (k, vs) ∈ groups kvs ↔ k ∈ group_keys (kvs.*1) ∧ vs = group_values k kvs.
Proof.
  unfold groups. rewrite list_elem_of_fmap. split.
  - intros (k' & [= -> ->] & Hk). done.
  - intros [Hk ->]. by exists k.
Qed.

Lemma group_values_rows i j k (rs : list row) :
  group_values k (zip (cell_at i <$> rs) (cell_at j <$> rs))
  = cell_at j <$> filter (λ r, cell_at i r = k) rs.
Proof.
  unfold group_values. induction rs as [|r rs IH]; [done|].
  rewrite !fmap_cons. simpl zip.
  destruct (decide (cell_at i r = k)) as [Hk|Hk].
  - rewrite !filter_cons_True by done. rewrite !fmap_cons. by f_equal.
  - by rewrite !filter_cons_False by done.
Qed.

Lemma numeric_Some l :
  Forall (λ c, is_text c = false) l → ∃ qs, numeric l = Some qs.
Proof.
  induction 1 as [|c l Hc _ [qs IH]]; [by eexists|].
  destruct c; simpl in *; [by eexists| |done].
  rewrite IH. by eexists.
Qed.

Lemma aggregate_spec (f : list Qc → Qc) how gs :
  (∀ k vs, (k, vs) ∈ gs → ∃ qs, numeric vs = Some qs) →
  ∃ r, aggregate f how gs = Return r
     ∧ r.*1 = gs.*1
     ∧ ∀ k m, (k, m) ∈ r →
         ∃ vs qs, (k, vs) ∈ gs ∧ numeric vs = Some qs ∧ m = f qs.
Proof.
  induction gs as [|[k vs] gs IH]; intros Hnum.
  - exists []. split; [done|]. split; [done|]. by intros k m ?%elem_of_nil.
  - destruct (Hnum k vs) as [qs Hqs]; [by left|].
    destruct IH as (r & Hr & Hkeys & Hvals).
    { intros k' vs' Hin. apply (Hnum k' vs'). by right. }
    exists ((k, f qs) :: r). simpl. rewrite Hqs, Hr.
    split; [done|]. split; [by f_equal|].
    intros k' m [[= -> ->]|Hin]%elem_of_cons.
    + exists vs, qs. split; [by left|done].
    + destruct (Hvals _ _ Hin) as (vs' & qs' & ? & ? & ?).
      exists vs', qs'. split; [by right|done].
Qed.

#[local] Instance by_value_desc_total : Total by_value_desc.
Proof. intros a b. unfold by_value_desc. apply Qc_le_total. Qed.

#[local] Instance by_value_desc_trans : Transitive by_value_desc.
Proof. intros a b c Hab Hbc. unfold by_value_desc in *. by etrans. Qed.

Lemma sort_values_desc_spec (ser : list (cell * Qc)) :
  StronglySorted by_value_desc (sort_values_desc ser)
  ∧ sort_values_desc ser ≡ₚ ser.
Proof.
  split; [apply StronglySorted_merge_sort; apply _
         |apply merge_sort_Permutation].
Qed.







(** The median of 80 and 60 is 70; the median of three values is the
    middle one. *)
Example median_two : median [Qc_of_Z 80; Qc_of_Z 60] = Qc_of_Z 70.
Proof. apply Qc_is_canon. by vm_compute. Qed.

Example median_three :
  median [Qc_of_Z 9; Qc_of_Z 1; Qc_of_Z 4] = Qc_of_Z 4.
Proof. apply Qc_is_canon. by vm_compute. Qed.

End RankingFacts.

Section RankingTheorems.

Implicit Types (s : state) (d : DataFrame).

Lemma column_present name d :
  has_column name d = true →
  ∃ i, col_index name (columns d) = Some i
     ∧ column name d = Return (cell_at i <$> rows d).
Proof.
  unfold has_column, column. intros Hin%bool_decide_eq_true_1.
  destruct (col_index_Some _ _ Hin) as [i Hi]. exists i. by rewrite Hi.
Qed.

(** The ranking computed from a table that has both columns, with numbers
    only in [Popularity_Score]. *)
Lemma popularity_by_category_spec d :
  has_column "Popularity_Score" d = true →
  has_column "Category" d = true →
  numeric_column "Popularity_Score" d →
  ∃ ranking categories,
    popularity_by_category d = Return ranking
    ∧ column "Category" d = Return categories
    ∧ StronglySorted by_value_desc ranking
    ∧ NoDup ranking.*1
    ∧ (∀ k, k ∈ ranking.*1 ↔ k ≠ NaN ∧ k ∈ categories)
    ∧ (∀ k m, (k, m) ∈ ranking →
         ∃ qs, numeric (cells_where "Category" k "Popularity_Score" d)
               = Some qs
             ∧ m = median qs).
Proof.
  intros Hpop Hcat Hnum.
  destruct (column_present _ _ Hpop) as (j & Hj & Hvs).
  destruct (column_present _ _ Hcat) as (i & Hi & Hks).
  specialize (Hnum _ Hvs).
  set (ks := cell_at i <$> rows d) in *.
  set (vs := cell_at j <$> rows d) in *.
  assert (∀ k, group_values k (zip ks vs)
               = cells_where "Category" k "Popularity_Score" d) as Hgv.
  { intros k. unfold cells_where. rewrite Hi, Hj. apply group_values_rows. }
  destruct (aggregate_spec median "median" (groups (zip ks vs)))
    as (r & Hr & Hkeys & Hvals).
  { intros k vs' [_ ->]%elem_of_groups. apply numeric_Some.
    rewrite Hgv. unfold cells_where. rewrite Hi, Hj.
    apply Forall_forall. intros c (r0 & -> & Hr0)%list_elem_of_fmap.
    apply list_elem_of_filter in Hr0 as [_ Hr0].
    rewrite Forall_forall in Hnum. apply Hnum.
    by apply list_elem_of_fmap_2. }
  destruct (sort_values_desc_spec r) as [Hsorted Hperm].
  assert ((zip ks vs).*1 = ks) as Hfst.
  { apply fst_zip. unfold ks, vs. by rewrite !length_fmap. }
  rewrite groups_keys, Hfst in Hkeys.
  destruct (group_keys_spec ks) as [Hnd Hin].
  exists (sort_values_desc r), ks.
  split; [unfold popularity_by_category, groupby; by rewrite Hks, Hvs, Hr|].
  split; [done|]. split; [done|].
  split; [by rewrite Hperm, Hkeys|].
  split; [intros k; by rewrite Hperm, Hkeys|].
  intros k m Hkm. rewrite Hperm in Hkm.
  destruct (Hvals _ _ Hkm) as (vs' & qs & [_ ->]%elem_of_groups & Hqs & ->).
  exists qs. by rewrite <- Hgv.
Qed.

(** C6, as the code has it: on a loaded table without a [Popularity_Score]
    column the report prints the banner and the description and returns,
    with no ranking and no error.  With a [Popularity_Score] column of
    numbers and a [Category] column it also prints the ranking header and
    one series: one entry per category, whose value is the median of the
    scores of the rows of that category, ordered by descending median. *)
Theorem ranked_median_report s d :
  df s = Some d →
  (has_column "Popularity_Score" d = false →
   print_text_stats s
   = (Return (),
      State (filename s) (df s) (fig s) (trace s ++ report_header d)))
  ∧ (has_column "Popularity_Score" d = true →
     has_column "Category" d = true →
     numeric_column "Popularity_Score" d →
     ∃ ranking categories,
       print_text_stats s
       = (Return (),
          State (filename s) (df s) (fig s)
            (trace s ++ report_header d ++ ranking_header
               ++ [EvPrint (Series ranking)]))
       ∧ column "Category" d = Return categories
       ∧ StronglySorted by_value_desc ranking
       ∧ NoDup ranking.*1
       ∧ (∀ k, k ∈ ranking.*1 ↔ k ≠ NaN ∧ k ∈ categories)
       ∧ (∀ k m, (k, m) ∈ ranking →
            ∃ qs, numeric (cells_where "Category" k "Popularity_Score" d)
                  = Some qs
                ∧ m = median qs)).
Proof.
  intros Hdf. rewrite (print_text_stats_loaded _ _ Hdf). split.
  - by intros ->.
  - intros Hpop Hcat Hnum. rewrite Hpop.
    destruct (popularity_by_category_spec d Hpop Hcat Hnum)
      as (ranking & categories & -> & Hrest).
    by exists ranking, categories.
Qed.

Lemma numeric_column_coats_and_hats :
  numeric_column "Popularity_Score" (clean coats_and_hats).
Proof.
  intros vs [= <-]. repeat constructor.
Qed.

(** A table without scores: the report stops after the description.  The
    scenario of the specification: after cleaning, the scores of [Coats]
    are 80 and 60, their median is 70, and [Coats] ranks first; the missing
    score of [Hats] counts as zero. *)
Lemma ranked_median_report_witness :
  print_text_stats (loaded (init PATH) prices_only)
  = (Return (),
     State PATH (Some (clean prices_only)) (fig (init PATH))
       (trace (loaded (init PATH) prices_only)
          ++ report_header (clean prices_only)))
  ∧ (∃ ranking categories,
       print_text_stats (loaded (init PATH) coats_and_hats)
       = (Return (),
          State PATH (Some (clean coats_and_hats)) (fig (init PATH))
            (trace (loaded (init PATH) coats_and_hats)
               ++ report_header (clean coats_and_hats) ++ ranking_header
               ++ [EvPrint (Series ranking)]))
       ∧ column "Category" (clean coats_and_hats) = Return categories
       ∧ StronglySorted by_value_desc ranking
       ∧ NoDup ranking.*1
       ∧ (∀ k, k ∈ ranking.*1 ↔ k ≠ NaN ∧ k ∈ categories)
       ∧ (∀ k m, (k, m) ∈ ranking →
            ∃ qs, numeric (cells_where "Category" k "Popularity_Score"
                             (clean coats_and_hats))
                  = Some qs
                ∧ m = median qs))
  ∧ bool_decide
      (popularity_by_category (clean coats_and_hats)
       = Return [(Str "Coats", Qc_of_Z 70); (Str "Hats", Qc_of_Z 5)])
    = true.
Proof.
  split; [|split].
  - destruct (ranked_median_report (loaded (init PATH) prices_only)
                (clean prices_only) eq_refl) as [H _].
    exact (H eq_refl).
  - destruct (ranked_median_report (loaded (init PATH) coats_and_hats)
                (clean coats_and_hats) eq_refl) as [_ H].
    exact (H eq_refl eq_refl numeric_column_coats_and_hats).
  - by vm_compute.
Defined.

(** C6 as worded fails: the table of [styles_and_scores] has a
    [Popularity_Score] column, yet the report raises at the grouping, for
    want of a [Category] column, and prints no ranking.  The same happens at
    the median when the table has both columns and a score that is a
    text. *)
Lemma ranking_needs_category :
  (has_column "Popularity_Score" (clean styles_and_scores) = true
   ∧ (print_text_stats (loaded (init PATH) styles_and_scores)).1
     = Raise (KeyError "Category")
   ∧ existsb is_series
       (trace (print_text_stats (loaded (init PATH) styles_and_scores)).2)
     = false)
  ∧ (has_column "Popularity_Score" (clean worded_scores) = true
     ∧ has_column "Category" (clean worded_scores) = true
     ∧ (print_text_stats (loaded (init PATH) worded_scores)).1
       = Raise (TypeError "agg function failed [how->median,dtype->object]")
     ∧ existsb is_series
         (trace (print_text_stats (loaded (init PATH) worded_scores)).2)
       = false).
Proof. by vm_compute. Qed.

End RankingTheorems.

(** * Further properties of the methods *)

(** ** More on the cleaning step *)

Section CleanMore.

Implicit Types (rs : list row) (seen : list (list cell)) (d : DataFrame).

Lemma fill_cell_fixed c : fill_cell c = c → isna c = false.
Proof. by destruct c. Qed.

Lemma fill_row_fixed r :
  fill_row r = r ↔ ∀ c, c ∈ cells r → isna c = false.
Proof.
  destruct r as [n cs]. unfold fill_row. simpl. split.
  - intros [= Hcs] c Hc. induction cs as [|c0 cs IH]; [by apply elem_of_nil in Hc|].
    simpl in Hcs. injection Hcs as Hc0 Hcs.
    apply elem_of_cons in Hc as [->|Hc]; [by apply fill_cell_fixed|by apply IH].
  - intros Hall. f_equal. induction cs as [|c0 cs IH]; [done|].
    simpl. rewrite fill_cell_id by (apply Hall; by left).
    f_equal. apply IH. intros c Hc. apply Hall. by right.
Qed.

(** X1: cleaning keeps the columns and the index labels: the labels of the
    cleaned rows are the labels of the file, in order, with those of the
    removed rows left out (the index is not renumbered), and the row count
    does not grow. *)
Theorem clean_keeps_index d :
  columns (clean d) = columns d
  ∧ label <$> rows (clean d) `sublist_of` label <$> rows d
  ∧ (length (rows (clean d)) ≤ length (rows d))%nat.
Proof.
  assert (rows (clean d) `sublist_of` fill_row <$> rows d) as Hsub
    by (rewrite clean_rows; apply drop_duplicated_sublist).
  split; [done|]. split.
  - apply (fmap_sublist label) in Hsub.
    rewrite <- list_fmap_compose in Hsub.
    by rewrite (list_fmap_ext (label ∘ fill_row) label (rows d)) in Hsub.
  - apply sublist_length in Hsub. by rewrite length_fmap in Hsub.
Qed.

(** X2: the first row of the file always survives the cleaning step, with
    its missing cells filled; an empty table stays empty and a table with
    rows keeps at least one. *)
Theorem clean_keeps_first_row d :
  head (rows (clean d)) = fill_row <$> head (rows d).
Proof.
  rewrite clean_rows. destruct (rows d) as [|r rs]; [done|].
  rewrite fmap_cons. unfold duplicated. rewrite drop_duplicated_cons.
  rewrite decide_False by apply not_elem_of_nil. done.
Qed.

(** X3: the tables the cleaning step leaves as they are, are exactly those
    without a missing cell and without two rows of the same cells. *)
Theorem clean_fixed_points d :
  clean d = d
  ↔ (∀ r c, r ∈ rows d → c ∈ cells r → isna c = false)
    ∧ NoDup (cells <$> rows d).
Proof.
  split.
  - intros Heq. split.
    + intros r c Hr. rewrite <- Heq in Hr.
      apply clean_rows_filled in Hr. by apply fill_row_fixed.
    + rewrite <- Heq, clean_rows. apply drop_duplicated_NoDup.
  - intros [Hna Hnd].
    assert (fill_row <$> rows d = rows d) as Hfill.
    { rewrite <- (list_fmap_id (rows d)) at 2.
      apply list_fmap_ext. intros _ r Hr%list_elem_of_lookup_2.
      apply fill_row_fixed. intros c. by apply Hna. }
    destruct d as [cols rs]. unfold clean, drop_duplicates, fillna. simpl in *.
    change (map fill_row rs) with (fill_row <$> rs). rewrite Hfill.
    f_equal. apply drop_duplicated_id; [done|].
    intros r _. apply not_elem_of_nil.
Qed.

(** X4: the cleaned table holds every distinct filled row of the file
    exactly once: the same rows up to repetition, and as many rows as there
    are distinct filled rows. *)
Theorem clean_distinct_rows d :
  (∀ x, x ∈ cells <$> rows (clean d) ↔ x ∈ cells <$> rows (fillna d))
  ∧ length (rows (clean d))
    = length (remove_dups (cells <$> rows (fillna d))).
Proof.
  assert (∀ x, x ∈ cells <$> rows (clean d) ↔ x ∈ cells <$> rows (fillna d))
    as Hsame.
  { intros x. split.
    - intros (r & -> & Hr)%list_elem_of_fmap. apply list_elem_of_fmap_2.
      eapply elem_of_sublist; [done|]. apply drop_duplicated_sublist.
    - intros (r & -> & Hr)%list_elem_of_fmap.
      destruct (drop_duplicated_complete [] _ _ Hr) as [Hs|Hs]; [|done].
      by apply elem_of_nil in Hs. }
  split; [done|].
  rewrite <- (length_fmap cells (rows (clean d))).
  apply Permutation_length, NoDup_Permutation.
  - rewrite clean_rows. apply drop_duplicated_NoDup.
  - apply NoDup_remove_dups.
  - intros x. by rewrite Hsame, elem_of_remove_dups.
Qed.

Lemma fill_then_drop_sublist seen seen' rs :
  (∀ x, x ∈ seen → map fill_cell x ∈ seen') →
  drop_mask (duplicated_from seen' (fill_row <$> rs)) (fill_row <$> rs)
  `sublist_of` fill_row <$> drop_mask (duplicated_from seen rs) rs.
Proof.
  revert seen seen'. induction rs as [|r rs IH]; intros seen seen' Hseen.
  - simpl. constructor.
  - rewrite fmap_cons, !drop_duplicated_cons.
    destruct (decide (cells r ∈ seen)) as [Hin|Hin].
    + rewrite decide_True by (by apply Hseen). by apply IH.
    + rewrite fmap_cons.
      destruct (decide (cells (fill_row r) ∈ seen')) as [Hin'|Hin'].
      * apply sublist_cons. apply IH.
        intros x [->|Hx]%elem_of_cons; [done|by apply Hseen].
      * apply sublist_skip. apply IH.
        intros x [->|Hx]%elem_of_cons; [by left|right; by apply Hseen].
Qed.

(** X5: filling before deduplicating removes every row that deduplicating
    the raw table removes, and possibly more: the cleaned rows are among
    the filled rows of the deduplicated raw table, in the same order. *)
Theorem clean_within_raw_dedup d :
  rows (clean d) `sublist_of` fill_row <$> rows (drop_duplicates d)
  ∧ (length (rows (clean d)) ≤ length (rows (drop_duplicates d)))%nat.
Proof.
  assert (rows (clean d) `sublist_of` fill_row <$> rows (drop_duplicates d))
    as Hsub.
  { rewrite clean_rows. simpl. apply fill_then_drop_sublist.
    by intros x ?%elem_of_nil. }
  split; [done|]. apply sublist_length in Hsub.
  by rewrite length_fmap in Hsub.
Qed.

End CleanMore.

(** ** More on the report *)

Section ReportMore.

Implicit Types (s : state) (d : DataFrame) (e : exn).

(** X6: the report only prints.  Whether it returns or raises, it leaves
    the file name, the table and the figure as they were, adds nothing but
    print events to the trace, and the first three of them are the banner. *)
Theorem report_is_read_only s :
  ∃ rest,
    (print_text_stats s).2
    = State (filename s) (df s) (fig s) (trace s ++ banner ++ rest)
    ∧ Forall (λ ev, is_print ev = true) rest.
Proof.
  destruct (df s) as [d|] eqn:Hdf.
  - rewrite (print_text_stats_loaded _ _ Hdf).
    destruct (has_column "Popularity_Score" d);
      [destruct (popularity_by_category d)|];
      simpl; rewrite Hdf; eexists; (split; [reflexivity|]);
      repeat constructor.
  - unfold_M. rewrite Hdf. simpl. rewrite <- !app_assoc. simpl.
    exists []. split; [by rewrite ?Hdf|constructor].
Qed.

(** X7: on an analyzer that has not loaded a table, the report prints the
    banner and then raises [AttributeError], because [self.df] is still
    [None]; nothing else is printed. *)
Theorem report_before_load s :
  df s = None →
  ∃ m, print_text_stats s
       = (Raise (AttributeError m),
          State (filename s) None (fig s) (trace s ++ banner)).
Proof.
  intros Hdf. unfold_M. rewrite Hdf. simpl. rewrite <- !app_assoc. simpl.
  by eexists.
Qed.

Lemma report_before_load_witness :
  ∃ m, print_text_stats (init PATH)
       = (Raise (AttributeError m),
          State (filename (init PATH)) None (fig (init PATH))
                (trace (init PATH) ++ banner)).
Proof. apply (report_before_load (init PATH)). reflexivity. Defined.


Lemma has_column_false_iff name d :
  has_column name d = false ↔ column name d = Raise (KeyError name).
Proof.
  split; [apply column_absent|].
  intros Hcol. destruct (has_column name d) eqn:Hhas; [|done].
  destruct (column_present _ _ Hhas) as (i & _ & Hret). congruence.
Qed.





End ReportMore.

(** ** More on the orchestrator *)

Section RunMore.

Variable read_csv : string → result DataFrame.

Implicit Types (s : state) (raw : DataFrame) (e : exn).

(** The end state of [run] after a successful load, by outcome of the
    report. *)
Lemma run_loaded_cases s raw :
  read_csv (filename s) = Return raw →
  ∃ rep,
    Forall (λ ev, is_print ev = true) rep
    ∧ ((∃ e, run read_csv s
             = (Raise e,
                State (filename s) (Some (clean raw)) (fig s)
                  (trace s ++ [EvRead (filename s);
                               EvLog INFO "Данные загружены и очищены."]
                     ++ rep))
           ∧ (print_text_stats (loaded s raw)).1 = Raise e)
       ∨ (∃ ws shown,
            run read_csv s
            = (Return (),
               State (filename s) (Some (clean raw)) shown
                 (trace s ++ [EvRead (filename s);
                              EvLog INFO "Данные загружены и очищены."]
                    ++ rep ++ [EvSubplots] ++ ws ++ [EvShow shown]
                    ++ [EvLog INFO completion]))
            ∧ Forall (λ ev, is_warning ev = true) ws)).
Proof.
  intros Hread.
  destruct (print_text_stats_frame (loaded s raw)) as (rep & Hs1 & Hrep & _).
  exists rep. split; [done|]. rewrite (run_loaded _ _ _ Hread).
  unfold mbind, M_bind.
  destruct (print_text_stats (loaded s raw)) as [[[]|e] s1] eqn:Hrun;
    simpl in Hs1; subst s1.
  - right. rewrite plot_all_charts_run.
    match goal with
    | |- context [subplots figure_title ?x] =>
        set (s0 := (subplots figure_title x).2)
    end.
    exists (panel_log P00 s0 ++ panel_log P01 s0 ++ panel_log P10 s0
              ++ panel_log P11 s0),
           (Figure figure_title (panel_axes P00 s0) (panel_axes P01 s0)
                   (panel_axes P10 s0) (panel_axes P11 s0)).
    split.
    + unfold log, emit. cbn [fst snd trace filename df fig loaded].
      by rewrite <- !app_assoc.
    + repeat apply Forall_app_2; apply panel_log_warnings.
  - left. exists e. split; [|done]. simpl. by rewrite <- app_assoc.
Qed.

(** X10: once the file is read, the table [run] leaves in the analyzer is
    the cleaned table of the file, under the same file name, whether the
    report returns or raises: neither the report nor the charts write to
    [self.df]. *)
Theorem run_keeps_clean_table s raw :
  read_csv (filename s) = Return raw →
  df (run read_csv s).2 = Some (clean raw)
  ∧ filename (run read_csv s).2 = filename s.
Proof.
  intros Hread.
  destruct (run_loaded_cases _ _ Hread)
    as (rep & _ & [(e & -> & _)|(ws & shown & -> & _)]); done.
Qed.

(** X11: the only exceptions that leave [run] are those of the report: if
    [run] raises, the file was read, the table was loaded, and
    [print_text_stats] raised that exception on it.  A failure of the
    loader or of a chart never leaves [run]. *)
Theorem run_raises_only_from_report s e :
  (run read_csv s).1 = Raise e →
  ∃ raw, read_csv (filename s) = Return raw
       ∧ (print_text_stats (loaded s raw)).1 = Raise e.
Proof.
  destruct (read_csv (filename s)) as [raw|e0] eqn:Hread.
  - intros Hrun. exists raw. split; [done|].
    destruct (run_loaded_cases _ _ Hread)
      as (rep & _ & [(e' & Heq & Hrep)|(ws & shown & Heq & _)]);
      rewrite Heq in Hrun; simpl in Hrun; [|done].
    by injection Hrun as <-.
  - by rewrite (run_load_failed _ _ _ Hread).
Qed.

Lemma no_reads_in (evs : list event) :
  Forall (λ ev, is_print ev = true ∨ is_warning ev = true
                ∨ is_chart ev = true ∨ is_completion ev = true) evs →
  filter (λ ev, is_read ev = true) evs = [].
Proof.
  induction 1 as [|ev evs Hev _ IH]; [done|].
  rewrite filter_cons_False; [done|].
  destruct ev; simpl in *; try done. destruct Hev as [?|[?|[?|?]]]; done.
Qed.

(** X12: [run] reads the file exactly once, whatever the outcome of the
    load, of the report and of the charts. *)
Theorem run_reads_once s :
  length (filter (λ ev, is_read ev = true) (emitted (run read_csv) s)) = 1.
Proof.
  destruct (read_csv (filename s)) as [raw|e0] eqn:Hread.
  - destruct (run_loaded_cases _ _ Hread)
      as (rep & Hrep & [(e & Heq & _)|(ws & shown & Heq & Hws)]).
    + rewrite (emitted_app _ _ _ ltac:(by rewrite Heq)).
      rewrite filter_app, (no_reads_in rep); [done|].
      eapply Forall_impl; [done|]. by left.
    + rewrite (emitted_app _ _ _ ltac:(by rewrite Heq)).
      rewrite filter_app, (no_reads_in (rep ++ _)); [done|].
      apply Forall_app_2; [eapply Forall_impl; [done|]; by left|].
      apply Forall_cons_2; [by right; right; left|].
      apply Forall_app_2; [eapply Forall_impl; [done|]; by right; left|].
      apply Forall_cons_2; [by right; right; left|].
      apply Forall_cons_2; [|constructor]. right. right. right.
      by apply bool_decide_eq_true_2.
  - rewrite (emitted_app _ _ _
               ltac:(by rewrite (run_load_failed _ _ _ Hread))).
    done.
Qed.

End RunMore.

Lemma run_keeps_clean_table_witness :
  df (run (always scores_only) (init PATH)).2 = Some (clean scores_only)
  ∧ filename (run (always scores_only) (init PATH)).2 = filename (init PATH).
Proof.
  apply (run_keeps_clean_table (always scores_only) (init PATH) scores_only).
  reflexivity.
Defined.

Lemma run_raises_only_from_report_witness :
  ∃ raw, always brands_and_scores (filename (init PATH)) = Return raw
       ∧ (print_text_stats (loaded (init PATH) raw)).1
         = Raise (KeyError "Category").
Proof.
  apply (run_raises_only_from_report (always brands_and_scores) (init PATH)).
  by vm_compute.
Defined.

(** ** More on the charts *)

Section ChartsMore.

Implicit Types (s : state) (d : DataFrame) (p : pos) (e : exn).

Lemma panel_raises_blank p s e :
  (panel p s).1 = Raise e →
  panel_axes p s = blank
  ∧ panel_log p s = [EvLog WARNING (panel_warning p ++ exn_str e)].
Proof.
  unfold panel_axes, panel_log. destruct (panel p s) as [[[]|e'] s'];
    simpl; [done|]. by intros [= ->].
Qed.

Lemma panel_without_table p s :
  df s = None → ∃ e, (panel p s).1 = Raise e.
Proof.
  intros Hdf. destruct p; simpl;
    unfold plot_colors, plot_prices, plot_popularity, plot_ratings;
    unfold_M; rewrite Hdf; by eexists.
Qed.

Lemma variable_absent name d :
  has_column name d = false →
  variable name d
  = Raise (ValueError ("Could not interpret value `" ++ name ++ "`")).
Proof.
  unfold has_column, variable. intros Hno%bool_decide_eq_false_1.
  by rewrite col_index_None.
Qed.

Lemma variable_present name d :
  has_column name d = true →
  ∃ i, col_index name (columns d) = Some i
     ∧ variable name d = Return (cell_at i <$> rows d)
     ∧ column name d = Return (cell_at i <$> rows d).
Proof.
  unfold has_column, variable, column. intros Hin%bool_decide_eq_true_1.
  destruct (col_index_Some _ _ Hin) as [i Hi]. exists i. by rewrite Hi.
Qed.

(** A block raises when one of the columns it names is absent. *)
Lemma panel_missing_column p s d c :
  df s = Some d → c ∈ required_columns p → has_column c d = false →
  ∃ e, (panel p s).1 = Raise e.
Proof.
  intros Hdf Hc Hno.
  destruct p; simpl in Hc; simpl panel;
    unfold plot_colors, plot_prices, plot_popularity, plot_ratings;
    unfold_M; rewrite Hdf; simpl;
    repeat (apply elem_of_cons in Hc as [->|Hc]);
    try (by apply elem_of_nil in Hc).
  - rewrite (column_absent _ _ Hno). by eexists.
  - unfold groupby. rewrite (column_absent _ _ Hno). by eexists.
  - unfold groupby. destruct (column "Brand" d); simpl; [|by eexists].
    rewrite (column_absent _ _ Hno). by eexists.
  - rewrite (variable_absent _ _ Hno). by eexists.
  - destruct (variable "Style" d); simpl; [|by eexists].
    rewrite (variable_absent _ _ Hno). by eexists.
  - rewrite (variable_absent _ _ Hno). by eexists.
  - destruct (variable "Season" d); simpl; [|by eexists].
    rewrite (variable_absent _ _ Hno). by eexists.
Qed.

Lemma charts_run s :
  let s0 := (subplots figure_title s).2 in
  (plot_all_charts s).1 = Return ()
  ∧ (∀ p, ax p (charts s) = panel_axes p s0)
  ∧ emitted plot_all_charts s
    = [EvSubplots] ++ panel_log P00 s0 ++ panel_log P01 s0
        ++ panel_log P10 s0 ++ panel_log P11 s0 ++ [EvShow (charts s)].
Proof.
  intros s0. unfold charts, emitted. rewrite (plot_all_charts_run s).
  cbn [fst snd fig trace]. split; [done|]. split; [by intros []|].
  by rewrite drop_app_length.
Qed.

(** X13: on an analyzer that has not loaded a table, [plot_all_charts] does
    not raise: each of the four blocks fails on [self.df] being [None] and
    is caught, so four warnings are logged, one per block and in the order
    of the blocks, and the figure is shown with four blank panels. *)
Theorem charts_before_load s :
  df s = None →
  (plot_all_charts s).1 = Return ()
  ∧ (∀ p, ax p (charts s) = blank)
  ∧ ∃ e0 e1 e2 e3,
      emitted plot_all_charts s
      = [EvSubplots;
         EvLog WARNING (panel_warning P00 ++ exn_str e0);
         EvLog WARNING (panel_warning P01 ++ exn_str e1);
         EvLog WARNING (panel_warning P10 ++ exn_str e2);
         EvLog WARNING (panel_warning P11 ++ exn_str e3);
         EvShow (charts s)].
Proof.
  intros Hdf. destruct (charts_run s) as (Hret & Hax & Htr).
  set (s0 := (subplots figure_title s).2) in *.
  assert (df s0 = None) as Hdf0 by done.
  assert (∀ p, ∃ e, panel_axes p s0 = blank
                  ∧ panel_log p s0
                    = [EvLog WARNING (panel_warning p ++ exn_str e)]) as Hp.
  { intros p. destruct (panel_without_table p s0 Hdf0) as [e He].
    exists e. by apply panel_raises_blank. }
  split; [done|]. split.
  - intros p. rewrite Hax. by destruct (Hp p) as (e & -> & _).
  - destruct (Hp P00) as (e0 & _ & H0), (Hp P01) as (e1 & _ & H1),
      (Hp P10) as (e2 & _ & H2), (Hp P11) as (e3 & _ & H3).
    exists e0, e1, e2, e3. by rewrite Htr, H0, H1, H2, H3.
Qed.

Lemma charts_before_load_witness :
  (plot_all_charts (init PATH)).1 = Return ()
  ∧ (∀ p, ax p (charts (init PATH)) = blank)
  ∧ ∃ e0 e1 e2 e3,
      emitted plot_all_charts (init PATH)
      = [EvSubplots;
         EvLog WARNING (panel_warning P00 ++ exn_str e0);
         EvLog WARNING (panel_warning P01 ++ exn_str e1);
         EvLog WARNING (panel_warning P10 ++ exn_str e2);
         EvLog WARNING (panel_warning P11 ++ exn_str e3);
         EvShow (charts (init PATH))].
Proof. apply (charts_before_load (init PATH)). reflexivity. Defined.

(** X14: every chart needs the columns its block names.  When one of them
    is absent from the loaded table ([Color]; [Brand], [Price(USD)];
    [Style], [Popularity_Score]; [Season], [Customer_Rating]), the panel of
    that block is blank in the figure shown and the warning of that block
    is logged. *)
Theorem chart_needs_columns s d p c :
  df s = Some d →
  c ∈ required_columns p →
  has_column c d = false →
  ax p (charts s) = blank
  ∧ ∃ e, EvLog WARNING (panel_warning p ++ exn_str e)
         ∈ emitted plot_all_charts s.
Proof.
  intros Hdf Hc Hno. destruct (charts_run s) as (_ & Hax & Htr).
  set (s0 := (subplots figure_title s).2) in *.
  destruct (panel_missing_column p s0 d c Hdf Hc Hno) as [e He].
  destruct (panel_raises_blank _ _ _ He) as [Hblank Hlog].
  split; [by rewrite Hax|]. exists e. rewrite Htr.
  destruct p; rewrite Hlog; rewrite !elem_of_app, !elem_of_cons; tauto.
Qed.

Lemma chart_needs_columns_witness :
  ax P01 (charts (loaded (init PATH) trends)) = blank
  ∧ ∃ e, EvLog WARNING (panel_warning P01 ++ exn_str e)
         ∈ emitted plot_all_charts (loaded (init PATH) trends).
Proof.
  apply (chart_needs_columns (loaded (init PATH) trends) (clean trends)
           P01 "Price(USD)").
  - reflexivity.
  - apply elem_of_cons. right. apply elem_of_cons. by left.
  - reflexivity.
Defined.

End ChartsMore.

(** ** What the charts show *)

Section ChartContents.

Implicit Types (s : state) (d : DataFrame) (l : list cell).

(** Counting the elements of a list key by key counts each element whose
    key is listed once. *)
Lemma filter_length_ext {A} (P Q : A → Prop)
    `{∀ a, Decision (P a)} `{∀ a, Decision (Q a)} (xs : list A) :
  (∀ a, a ∈ xs → P a ↔ Q a) →
  length (filter P xs) = length (filter Q xs).
Proof.
  induction xs as [|a xs IH]; intros Hext; [done|].
  assert (length (filter P xs) = length (filter Q xs)) as IH'
    by (apply IH; intros b Hb; apply Hext; by right).
  rewrite !filter_cons.
  destruct (decide (P a)) as [HP|HP], (decide (Q a)) as [HQ|HQ]; simpl;
    try (by rewrite IH'); exfalso;
    [apply HQ|apply HP]; by apply (Hext a); [left|].
Qed.

Lemma sum_by_key {A} (key : A → cell) (ks : list cell) (xs : list A) :
  NoDup ks →
  sum_list_with (λ k, length (filter (λ a, key a = k) xs)) ks
  = length (filter (λ a, key a ∈ ks) xs).
Proof.
  induction 1 as [|k ks Hk Hnd IH]; simpl.
  - induction xs as [|a xs IHxs]; [done|].
    by rewrite filter_cons_False by apply not_elem_of_nil.
  - rewrite IH. clear IH. induction xs as [|a xs IHxs]; [done|].
    rewrite (filter_cons (λ a, key a = k)),
      (filter_cons (λ a, key a ∈ ks)),
      (filter_cons (λ a, key a ∈ k :: ks)).
    destruct (decide (key a = k)) as [Ha|Ha],
      (decide (key a ∈ ks)) as [Hin|Hin],
      (decide (key a ∈ k :: ks)) as [Hin'|Hin']; simpl;
      rewrite <- ?IHxs; try lia; exfalso;
      rewrite elem_of_cons in Hin'; try subst k; tauto.
Qed.

#[local] Instance by_count_desc_total : Total by_count_desc.
Proof. intros a b. unfold by_count_desc. lia. Qed.

#[local] Instance by_count_desc_trans : Transitive by_count_desc.
Proof. intros a b c. unfold by_count_desc. lia. Qed.

#[local] Instance by_value_asc_total : Total by_value_asc.
Proof. intros a b. unfold by_value_asc. apply Qc_le_total. Qed.

#[local] Instance by_value_asc_trans : Transitive by_value_asc.
Proof. intros a b c Hab Hbc. unfold by_value_asc in *. by etrans. Qed.

Lemma value_counts_spec l :
  StronglySorted by_count_desc (value_counts l)
  ∧ NoDup (value_counts l).*1
  ∧ (∀ k, k ∈ (value_counts l).*1 ↔ k ≠ NaN ∧ k ∈ l)
  ∧ (∀ k n, (k, n) ∈ value_counts l → n = count_of k l)
  ∧ sum_list_with snd (value_counts l)
    = length (filter (λ c, notna c = true) l).
Proof.
  unfold value_counts.
  set (ks := unique (filter (λ c, notna c = true) l)).
  destruct (unique_spec (filter (λ c, notna c = true) l)) as [Hnd Hin].
  fold ks in Hnd, Hin.
  assert (((λ k, (k, count_of k l)) <$> ks).*1 = ks) as Hfst.
  { rewrite <- list_fmap_compose. rewrite <- (list_fmap_id ks) at 2.
    by apply list_fmap_ext. }
  split; [apply StronglySorted_merge_sort; apply _|].
  split; [by rewrite merge_sort_Permutation, Hfst|]. split; [|split].
  - intros k. rewrite merge_sort_Permutation, Hfst, Hin, list_elem_of_filter.
    destruct k; simpl; split; intros [? ?]; split; done.
  - intros k n. rewrite merge_sort_Permutation.
    by intros (k' & [= -> ->] & _)%list_elem_of_fmap.
  - rewrite merge_sort_Permutation.
    assert (∀ ks' : list cell,
              sum_list_with snd ((λ k, (k, count_of k l)) <$> ks')
              = sum_list_with (λ k, count_of k l) ks') as Hsum.
    { induction ks' as [|k ks' IH]; [done|].
      rewrite fmap_cons. simpl. by f_equal. }
    etrans; [apply Hsum|].
    unfold count_of. etrans; [apply (sum_by_key id ks l Hnd)|].
    apply filter_length_ext. intros c Hc. simpl.
    rewrite Hin, list_elem_of_filter. tauto.
Qed.


Lemma panel_axes_loaded p s d :
  df s = Some d →
  ax p (charts s)
  = panel_axes p (State (filename s) (Some d) (Figure figure_title blank blank blank blank)
                        (trace s ++ [EvSubplots])).
Proof.
  intros Hdf. destruct (charts_run s) as (_ & Hax & _). rewrite Hax.
  unfold subplots. simpl. by rewrite Hdf.
Qed.

(** X15: the colour chart shows one bar per colour of the loaded table, as
    high as the number of rows of that colour, the most frequent colour
    first; the heights add up to the number of rows that have a colour. *)
Theorem color_chart s d colors :
  df s = Some d →
  column "Color" d = Return colors →
  ∃ bars,
    plot (ax P00 (charts s)) = Some (CountBars bars)
    ∧ StronglySorted by_count_desc bars
    ∧ NoDup bars.*1
    ∧ (∀ k, k ∈ bars.*1 ↔ k ≠ NaN ∧ k ∈ colors)
    ∧ (∀ k n, (k, n) ∈ bars → n = count_of k colors)
    ∧ sum_list_with snd bars
      = length (filter (λ c, notna c = true) colors).
Proof.
  intros Hdf Hcol. exists (value_counts colors).
  destruct (value_counts_spec colors) as (Hs & Hnd & Hin & Hn & Hsum).
  split; [|done].
  rewrite (panel_axes_loaded _ _ _ Hdf). unfold panel_axes. simpl panel.
  unfold plot_colors. unfold_M. rewrite Hcol. simpl. do 2 f_equal.
  rewrite <- list_fmap_compose.
  rewrite <- (list_fmap_id (value_counts colors)) at 2.
  apply list_fmap_ext. intros _ [k n] Hkn%list_elem_of_lookup_2. simpl.
  by rewrite (Hn _ _ Hkn).
Qed.



Lemma sum_list_with_pointwise {A} (f g : A → nat) (xs : list A) :
  (∀ a, f a = g a) → sum_list_with f xs = sum_list_with g xs.
Proof.
  intros Hfg. induction xs as [|a xs IH]; simpl; [done|].
  by rewrite Hfg, IH.
Qed.

Lemma numeric_length l qs :
  numeric l = Some qs →
  length qs = length (filter (λ c, notna c = true) l).
Proof.
  revert qs. induction l as [|c l IH]; intros qs Hl.
  - by injection Hl as <-.
  - destruct c as [|q|t]; [| |done].
    + rewrite filter_cons_False by done. by apply IH.
    + rewrite filter_cons_True by done. simpl in Hl.
      destruct (numeric l) as [qs'|]; [|done]. injection Hl as <-.
      simpl. f_equal. by apply IH.
Qed.

Lemma group_values_present k (xy : list (cell * cell)) :
  length (filter (λ c, notna c = true) (group_values k xy))
  = length (filter (λ kv, kv.1 = k)
                   (filter (λ kv, notna kv.2 = true) xy)).
Proof.
  unfold group_values. induction xy as [|[x y] xy IH]; [done|].
  rewrite (filter_cons (λ kv, kv.1 = k)),
    (filter_cons (λ kv, notna kv.2 = true)). simpl.
  destruct (decide (x = k)) as [Hx|Hx],
    (decide (notna y = true)) as [Hy|Hy]; simpl.
  - rewrite filter_cons_True by done.
    rewrite (filter_cons_True (λ kv, kv.1 = k)) by done. simpl. by f_equal.
  - rewrite filter_cons_False by done. done.
  - rewrite (filter_cons_False (λ kv, kv.1 = k)) by done. done.
  - done.
Qed.

(** The boxes of [samples_by_category]: one per category, each holding the
    numbers of that category. *)
Lemma samples_by_category_spec (xy : list (cell * cell)) :
  (∀ k, ∃ qs, numeric (group_values k xy) = Some qs) →
  ∃ r, samples_by_category xy = Return r
     ∧ r.*1 = unique (filter (λ c, notna c = true) (xy.*1))
     ∧ (∀ k qs, (k, qs) ∈ r → numeric (group_values k xy) = Some qs)
     ∧ sum_list_with (λ kq, length kq.2) r
       = sum_list_with
           (λ k, length (filter (λ c, notna c = true) (group_values k xy)))
           (r.*1).
Proof.
  intros Hnum. unfold samples_by_category.
  generalize (unique (filter (λ c, notna c = true) (xy.*1))).
  intros ks. induction ks as [|k ks (r & Hr & Hkeys & Hvals & Hsum)].
  - exists []. split; [done|]. split; [done|]. split; [|done].
    by intros k qs ?%elem_of_nil.
  - destruct (Hnum k) as [qs Hqs]. exists ((k, qs) :: r).
    rewrite Hqs, Hr. split; [done|]. split; [by rewrite fmap_cons, Hkeys|].
    split.
    + intros k' qs' [[= -> ->]|Hin]%elem_of_cons; [done|by apply Hvals].
    + rewrite fmap_cons. simpl. rewrite Hsum.
      by rewrite (numeric_length _ _ Hqs).
Qed.

(** X18: the popularity chart shows one box per style of the loaded table,
    and the sample of a box is the scores of the rows of that style, in row
    order; every row that has a style and a score is in exactly one box, so
    the sample sizes add up to the number of those rows. *)
Theorem popularity_chart s d :
  df s = Some d →
  has_column "Style" d = true →
  has_column "Popularity_Score" d = true →
  numeric_column "Popularity_Score" d →
  ∃ samples styles scores,
    plot (ax P10 (charts s)) = Some (Boxes samples)
    ∧ column "Style" d = Return styles
    ∧ column "Popularity_Score" d = Return scores
    ∧ NoDup samples.*1
    ∧ (∀ k, k ∈ samples.*1 ↔ k ≠ NaN ∧ k ∈ styles)
    ∧ (∀ k qs, (k, qs) ∈ samples →
         numeric (cells_where "Style" k "Popularity_Score" d) = Some qs)
    ∧ sum_list_with (λ kq, length kq.2) samples
      = length (filter (λ xy, notna xy.1 = true)
                  (filter (λ xy, notna xy.2 = true) (zip styles scores))).
Proof.
  intros Hdf Hstyle Hscore Hnum.
  destruct (variable_present _ _ Hstyle) as (i & Hi & Hx & Hx').
  destruct (variable_present _ _ Hscore) as (j & Hj & Hy & Hy').
  specialize (Hnum _ Hy').
  set (xs := cell_at i <$> rows d) in *.
  set (ys := cell_at j <$> rows d) in *.
  assert (∀ k, group_values k (zip xs ys)
               = cells_where "Style" k "Popularity_Score" d) as Hgv.
  { intros k. unfold cells_where. rewrite Hi, Hj. apply group_values_rows. }
  assert ((zip xs ys).*1 = xs) as Hfst.
  { apply fst_zip. unfold xs, ys. by rewrite !length_fmap. }
  destruct (samples_by_category_spec (zip xs ys))
    as (r & Hr & Hkeys & Hvals & Hsum).
  { intros k. apply numeric_Some. rewrite Hgv. unfold cells_where.
    rewrite Hi, Hj.
    apply Forall_forall. intros c (r0 & -> & Hr0)%list_elem_of_fmap.
    apply list_elem_of_filter in Hr0 as [_ Hr0].
    rewrite Forall_forall in Hnum. apply Hnum.
    by apply list_elem_of_fmap_2. }
  rewrite Hfst in Hkeys.
  destruct (unique_spec (filter (λ c, notna c = true) xs)) as [Hnd Hin].
  exists r, xs, ys. split.
  { rewrite (panel_axes_loaded _ _ _ Hdf). unfold panel_axes. simpl panel.
    unfold plot_popularity. unfold_M. rewrite Hx, Hy. simpl.
    by rewrite Hr. }
  split; [done|]. split; [done|]. split; [by rewrite Hkeys|]. split.
  { intros k. rewrite Hkeys, Hin, list_elem_of_filter.
    destruct k; simpl; split; intros [? ?]; split; done. }
  split; [intros k qs Hk; rewrite <- Hgv; by apply Hvals|].
  rewrite Hsum, Hkeys.
  rewrite (sum_list_with_pointwise _
             (λ k, length (filter (λ kv : cell * cell, kv.1 = k)
                             (filter (λ kv, notna kv.2 = true) (zip xs ys)))))
    by (intros k; apply group_values_present).
  rewrite (sum_by_key fst _ _ Hnd).
  apply filter_length_ext. intros [x y] Hxy. simpl.
  rewrite Hin, list_elem_of_filter. split; [tauto|]. intros Hx0.
  split; [done|]. apply list_elem_of_filter in Hxy as [_ Hxy].
  rewrite <- Hfst. by apply (list_elem_of_fmap_2 fst) in Hxy.
Qed.


Lemma full_table_scores_numeric :
  numeric_column "Popularity_Score" (clean full_table).
Proof. intros vs [= <-]. repeat constructor. Qed.


End ChartContents.

Lemma color_chart_witness :
  ∃ bars,
    plot (ax P00 (charts (loaded (init PATH) full_table)))
    = Some (CountBars bars)
    ∧ StronglySorted by_count_desc bars
    ∧ NoDup bars.*1
    ∧ (∀ k, k ∈ bars.*1 ↔ k ≠ NaN ∧ k ∈ [Str "Black"; Str "Red"; Str "Black"])
    ∧ (∀ k n, (k, n) ∈ bars →
         n = count_of k [Str "Black"; Str "Red"; Str "Black"])
    ∧ sum_list_with snd bars
      = length (filter (λ c, notna c = true)
                       [Str "Black"; Str "Red"; Str "Black"]).
Proof.
  apply (color_chart (loaded (init PATH) full_table) (clean full_table)).
  - reflexivity.
  - reflexivity.
Defined.



Lemma popularity_chart_witness :
  ∃ samples styles scores,
    plot (ax P10 (charts (loaded (init PATH) full_table)))
    = Some (Boxes samples)
    ∧ column "Style" (clean full_table) = Return styles
    ∧ column "Popularity_Score" (clean full_table) = Return scores
    ∧ NoDup samples.*1
    ∧ (∀ k, k ∈ samples.*1 ↔ k ≠ NaN ∧ k ∈ styles)
    ∧ (∀ k qs, (k, qs) ∈ samples →
         numeric (cells_where "Style" k "Popularity_Score" (clean full_table))
         = Some qs)
    ∧ sum_list_with (λ kq, length kq.2) samples
      = length (filter (λ xy, notna xy.1 = true)
                  (filter (λ xy, notna xy.2 = true) (zip styles scores))).
Proof.
  apply (popularity_chart (loaded (init PATH) full_table) (clean full_table)).
  - reflexivity.
  - reflexivity.
  - reflexivity.
  - apply full_table_scores_numeric.
Defined.

(** ** What the output depends on *)

Section OutputDependsOnTable.

Implicit Types (s : state) (d : DataFrame).



(** X20: what the report prints, and whether it returns or raises, depends
    on the table alone. *)
Theorem report_depends_on_table s1 s2 :
  df s1 = df s2 →
  (print_text_stats s1).1 = (print_text_stats s2).1
  ∧ emitted print_text_stats s1 = emitted print_text_stats s2.
Proof.
  intros Hdf. destruct (df s2) as [d|] eqn:Hdf2.
  - unfold emitted.
    rewrite (print_text_stats_loaded s1 d Hdf),
      (print_text_stats_loaded s2 d Hdf2).
    destruct (has_column "Popularity_Score" d);
      [destruct (popularity_by_category d)|];
      simpl; by rewrite !drop_app_length.
  - unfold emitted. unfold_M. rewrite Hdf, Hdf2. simpl.
    rewrite <- !app_assoc. simpl. by rewrite !drop_app_length.
Qed.

Lemma report_depends_on_table_witness :
  (print_text_stats (loaded (init PATH) full_table)).1
  = (print_text_stats
       (State "other.csv" (Some (clean full_table))
              (Figure "old" blank blank blank blank) [EvSubplots])).1
  ∧ emitted print_text_stats (loaded (init PATH) full_table)
    = emitted print_text_stats
        (State "other.csv" (Some (clean full_table))
               (Figure "old" blank blank blank blank) [EvSubplots]).
Proof.
  apply (report_depends_on_table (loaded (init PATH) full_table)). reflexivity.
Defined.

End OutputDependsOnTable.
